(** * remix-basic-todo: the route module [app/routes/index.tsx]

    A shallow embedding of the route's server side (the two validators and
    the [action] dispatcher over [FormData]) and of its client side (the
    [Index] component, which owns [editingId], and the [TaskItem] rows, each
    with a fetcher of its own), followed by the properties of the
    specification that concern them. *)

From Stdlib Require Import ZArith NArith Lia Ascii String.
From stdpp Require Import base option list gmap strings.

Open Scope Z_scope.

(** ** JavaScript values *)

Module JS.

(** A JavaScript string is a sequence of UTF-16 code units. *)
Definition jsstring := list N.

(** The string a source literal denotes (the literals of this file are
    ASCII, one code unit per character). *)
Definition js (s : string) : jsstring :=
  (λ a, N_of_ascii a) <$> list_ascii_of_string s.

(** The value of type [number]. The two zeros are one value here: nothing
    in this module tells them apart. *)
Inductive number :=
| NaN
| Num (z : Z)
| Infinity
| NegInfinity.

Definition isNaN (x : number) : bool :=
  match x with NaN => true | _ => false end.

(** The Number value for an integer: the nearest binary64, ties to the
    even significand, an infinity from 2^1024 - 2^970 on. *)
Definition toNumber (z : Z) : number :=
  let a := Z.abs z in
  if a <? 2 ^ 53 then Num z
  else
    let sh := Z.log2 a - 52 in
    let q := Z.shiftr a sh in
    let r := Z.land a (Z.ones sh) in
    let half := Z.shiftl 1 (sh - 1) in
    let q' := if (half <? r) || ((r =? half) && Z.odd q) then q + 1 else q in
    let m := Z.shiftl q' sh in
    if 2 ^ 1024 <=? m then (if z <? 0 then NegInfinity else Infinity)
    else Num (Z.sgn z * m).

(** StrWhiteSpaceChar: WhiteSpace (TAB, VT, FF, ZWNBSP and the space
    separators) and LineTerminator (LF, CR, LS, PS). *)
Definition isWhiteSpace (c : N) : bool :=
  ((c =? 0x09) || (c =? 0x0B) || (c =? 0x0C) || (c =? 0xFEFF)
   || (c =? 0x20) || (c =? 0xA0) || (c =? 0x1680)
   || ((0x2000 <=? c) && (c <=? 0x200A))
   || (c =? 0x202F) || (c =? 0x205F) || (c =? 0x3000)
   || (c =? 0x0A) || (c =? 0x0D) || (c =? 0x2028) || (c =? 0x2029))%N.

Fixpoint trimStart (s : jsstring) : jsstring :=
  match s with
  | c :: rest => if isWhiteSpace c then trimStart rest else s
  | [] => []
  end.

(** A decimal digit's value; [None] for any other code unit. *)
Definition digitValue (c : N) : option Z :=
  if ((0x30 <=? c) && (c <=? 0x39))%N then Some (Z.of_N c - 0x30) else None.

(** The values of the longest prefix of decimal digits. *)
Fixpoint leadingDigits (s : jsstring) : list Z :=
  match s with
  | c :: rest =>
      match digitValue c with
      | Some d => d :: leadingDigits rest
      | None => []
      end
  | [] => []
  end.

Definition mathInt (ds : list Z) : Z :=
  fold_left (λ acc d, 10 * acc + d) ds 0.

(** The sign a string starts with, and the string after it. *)
Definition splitSign (s : jsstring) : Z * jsstring :=
  match s with
  | c :: rest =>
      if (c =? 0x2D)%N then (-1, rest)
      else if (c =? 0x2B)%N then (1, rest)
      else (1, s)
  | [] => (1, [])
  end.

(** [parseInt(s, 10)]: leading white space is dropped, then one optional
    sign is read, then the longest run of decimal digits; what follows
    the digits is ignored, and no digit at all gives [NaN]. *)
Definition parseInt10 (s : jsstring) : number :=
  let '(sign, rest) := splitSign (trimStart s) in
  match leadingDigits rest with
  | [] => NaN
  | ds => toNumber (sign * mathInt ds)
  end.

End JS.
Export JS.

(** ** Form data *)

(** A [File] entry: its name and its bytes. *)
Record File := { file_name : jsstring; file_bytes : list N }.

Inductive FormDataEntryValue :=
| Text (s : jsstring)
| Blob (f : File).

(** [FormData]: entries in the order they were appended; a name may occur
    more than once. *)
Definition FormData := list (jsstring * FormDataEntryValue).

(** [fd.get(name)]: the first value under [name], [None] for [null]. *)
Fixpoint get (fd : FormData) (name : jsstring) : option FormDataEntryValue :=
  match fd with
  | (k, v) :: rest => if decide (k = name) then Some v else get rest name
  | [] => None
  end.

(** ** Exceptions and completions *)

Inductive Exn :=
| Error (message : string)
| NotFoundError.

Inductive Completion (A : Type) :=
| Return (a : A)
| Throw (e : Exn).
Arguments Return {A} a.
Arguments Throw {A} e.

(** ** Validation *)

Definition validateId (fd : FormData) : Completion number :=
  match get fd (js "id") with
  | Some (Text id) =>
      let intValue := parseInt10 id in
      if isNaN intValue then Throw (Error "id must be numeric string")
      else Return intValue
  | _ => Throw (Error "id must be string")
  end.

Definition validateName (fd : FormData) : Completion jsstring :=
  match get fd (js "name") with
  | Some (Text name) =>
      if (Z.of_nat (length name) <=? 0) then
        Throw (Error "name must be at least 1 characters")
      else Return name
  | _ => Throw (Error "name must be string")
  end.

(** ** The task store *)

Record Task := { id : Z; name : jsstring; done : bool }.

(** The arguments of the client's calls: [data] of [create], [data] of
    [update] (a field left out is [None]) and the unique [where]. *)
Record TaskCreateInput := { create_done : option bool; create_name : jsstring }.
Record TaskUpdateInput := { update_name : option jsstring; update_done : option bool }.
Record TaskWhereUniqueInput := { where_id : number }.

Inductive Call :=
| TaskFindMany
| TaskCreate (data : TaskCreateInput)
| TaskUpdate (where_ : TaskWhereUniqueInput) (data : TaskUpdateInput)
| TaskDelete (where_ : TaskWhereUniqueInput).

(** Modelled from the spec: the persistent task store behind [prisma]
    ([~/db.server] and the schema are not part of this module). Its rows in
    insertion order, the next identifier it assigns, and the calls it has
    received so far, oldest first. *)
Record Store := { tasks : list Task; nextId : Z; journal : list Call }.

(** An asynchronous computation against the store: it completes normally
    or throws, and leaves a store behind either way. *)
Definition Async (A : Type) : Type := Store → Completion A * Store.

Definition ret {A} (a : A) : Async A := λ s, (Return a, s).
Definition throw {A} (e : Exn) : Async A := λ s, (Throw e, s).
Definition bind {A B} (m : Async A) (k : A → Async B) : Async B :=
  λ s, match m s with
       | (Return a, s') => k a s'
       | (Throw e, s') => (Throw e, s')
       end.
(** A synchronous call inside an asynchronous function. *)
Definition sync {A} (c : Completion A) : Async A := λ s, (c, s).

Notation "'let*' x ':=' m 'in' k" := (bind m (λ x, k))
  (at level 10, x name, m at level 100, k at level 200).

(** The store notes a call it receives. *)
Definition record (c : Call) (s : Store) : Store :=
  {| tasks := tasks s; nextId := nextId s; journal := journal s ++ [c] |}.

Definition with_tasks (l : list Task) (s : Store) : Store :=
  {| tasks := l; nextId := nextId s; journal := journal s |}.

(** Modelled from the spec: the row a unique [where] selects, the Task
    that has that id. A number that is no integer selects none. *)
Definition selects (w : TaskWhereUniqueInput) (t : Task) : Prop :=
  where_id w = Num (id t).

#[global] Instance number_eq_dec : EqDecision number.
Proof. solve_decision. Defined.
#[global] Instance File_eq_dec : EqDecision File.
Proof. solve_decision. Defined.
#[global] Instance FormDataEntryValue_eq_dec : EqDecision FormDataEntryValue.
Proof. solve_decision. Defined.
#[global] Instance selects_dec w t : Decision (selects w t).
Proof. unfold selects. apply _. Defined.

(** Modelled from the spec: the fields [data] names are replaced, the
    others and the id are kept. *)
Definition patch (data : TaskUpdateInput) (t : Task) : Task :=
  {| id := id t;
     name := default (name t) (update_name data);
     done := default (done t) (update_done data) |}.

(** Modelled from the spec: [listTasks], the full read. *)
Definition prisma_task_findMany : Async (list Task) :=
  λ s, let s := record TaskFindMany s in (Return (tasks s), s).

(** Modelled from the spec: [createTask]. The store assigns the
    identifier; [done] is false unless given. *)
Definition prisma_task_create (data : TaskCreateInput) : Async Task :=
  λ s, let s := record (TaskCreate data) s in
       let t := {| id := nextId s;
                   name := create_name data;
                   done := default false (create_done data) |} in
       (Return t, {| tasks := tasks s ++ [t];
                     nextId := nextId s + 1;
                     journal := journal s |}).

(** Modelled from the spec: [updateTaskName] and [setTaskDone], the one
    call of the client with the fields to replace; [NotFoundError] when no
    Task has that id. *)
Definition prisma_task_update (w : TaskWhereUniqueInput) (data : TaskUpdateInput)
  : Async Task :=
  λ s, let s := record (TaskUpdate w data) s in
       match list_find (selects w) (tasks s) with
       | Some (k, t) =>
           (Return (patch data t), with_tasks (<[k := patch data t]> (tasks s)) s)
       | None => (Throw NotFoundError, s)
       end.

(** Modelled from the spec: [deleteTask]; [NotFoundError] when no Task has
    that id. *)
Definition prisma_task_delete (w : TaskWhereUniqueInput) : Async Task :=
  λ s, let s := record (TaskDelete w) s in
       match list_find (selects w) (tasks s) with
       | Some (k, t) => (Return t, with_tasks (delete k (tasks s)) s)
       | None => (Throw NotFoundError, s)
       end.

(** ** The loader and the action *)

Definition loader : Async (list Task) := prisma_task_findMany.

(** The object literals of the source evaluate their properties in the
    order written, before the call they are the argument of. *)
Definition action (fd : FormData) : Async unit :=
  let action := get fd (js "action") in
  if decide (action = Some (Text (js "add"))) then
    let* name := sync (validateName fd) in
    let* _ := prisma_task_create {| create_done := Some false; create_name := name |} in
    ret ()
  else if decide (action = Some (Text (js "update"))) then
    let* name := sync (validateName fd) in
    let* id := sync (validateId fd) in
    let* _ := prisma_task_update {| where_id := id |}
           {| update_name := Some name; update_done := None |} in
    ret ()
  else if decide (action = Some (Text (js "done")) ∨ action = Some (Text (js "undone"))) then
    let* id := sync (validateId fd) in
    let* _ := prisma_task_update {| where_id := id |}
           {| update_name := None;
              update_done := Some (bool_decide (action = Some (Text (js "done")))) |} in
    ret ()
  else if decide (action = Some (Text (js "delete"))) then
    let* id := sync (validateId fd) in
    let* _ := prisma_task_delete {| where_id := id |} in
    ret ()
  else
    throw (Error "unknown action").

(** The field map of a form whose fields are all text. *)
Definition form (l : list (string * string)) : FormData :=
  (λ kv, (js kv.1, Text (js kv.2))) <$> l.

(** ** The page: [Index] and its [TaskItem] rows *)

(** [Index] holds the loader's data and [editingId]; every [TaskItem] is
    keyed by its task's id and has a fetcher, whose [submission] is defined
    from the moment the row submits until the fetcher is idle again.
    [submitting] is the set of rows whose fetcher has a submission. *)
Record Page := {
  loaderData : list Task;
  editingId : option Z;
  submitting : gset Z;
}.

Definition setEditingId (v : option Z) (p : Page) : Page :=
  {| loaderData := loaderData p; editingId := v; submitting := submitting p |}.

Definition onStartEditing (i : Z) : Page → Page := setEditingId (Some i).

(** The callback of [Index] takes no parameter: the id a row passes is
    dropped. *)
Definition onFinishEditing (_ : Z) : Page → Page := setEditingId None.

(** The [isEditing] prop [Index] computes for the row of task [i]. *)
Definition isEditing (p : Page) (i : Z) : bool :=
  bool_decide (editingId p = Some i).

Definition isPending (p : Page) (i : Z) : bool :=
  bool_decide (i ∈ submitting p).

Definition mounted (p : Page) (i : Z) : bool :=
  bool_decide (i ∈ id <$> loaderData p).

(** The rows as rendered: each task with its [isEditing] prop. *)
Definition render (p : Page) : list (Task * bool) :=
  (λ task, (task, isEditing p (id task))) <$> loaderData p.

(** The body of the row's effect. React runs it after the row mounts and
    after every render in which [isPending] has changed. *)
Definition effect (i : Z) (p : Page) : Page :=
  if negb (isPending p i) then onFinishEditing i p else p.

Definition onClickText (i : Z) (p : Page) : Page :=
  if negb (isPending p i) then onStartEditing i p else p.

(** The fetcher of row [i] takes a submission; the effect runs since
    [isPending] has changed. *)
Definition submit (i : Z) (p : Page) : Page :=
  effect i {| loaderData := loaderData p;
              editingId := editingId p;
              submitting := submitting p ∪ {[i]} |}.

(** The loaders have been read again: rows whose task is gone unmount,
    rows of new tasks mount and run their effect. *)
Definition revalidate (data : list Task) (p : Page) : Page :=
  let fresh := filter (λ i, ¬ (i ∈ id <$> loaderData p)) (id <$> data) in
  foldr effect
    {| loaderData := data; editingId := editingId p; submitting := submitting p |}
    fresh.

(** The fetcher of row [i] is idle again, the loaders having been read
    again on the way: [isPending] has changed, so the row's effect runs if
    the row is still there. *)
Definition settle (i : Z) (data : list Task) (p : Page) : Page :=
  let p' := revalidate data
              {| loaderData := loaderData p;
                 editingId := editingId p;
                 submitting := submitting p ∖ {[i]} |} in
  if mounted p i && mounted p' i then effect i p' else p'.

Inductive Event :=
| ClickText (i : Z)
| ClickCancel (i : Z)
| ChangeCheckbox (i : Z)
| SubmitUpdate (i : Z)
| SubmitDelete (i : Z)
| Settled (i : Z) (data : list Task)
| Revalidated (data : list Task).

(** What an event does to the page. A control that is not rendered or is
    disabled receives no event. The Cancel button stops the click from
    reaching the name column; a click on Update reaches it, and sets
    [editingId] to the id it already has. *)
Definition step (ev : Event) (p : Page) : Page :=
  match ev with
  | ClickText i => if mounted p i then onClickText i p else p
  | ClickCancel i =>
      if mounted p i && isEditing p i && negb (isPending p i)
      then onFinishEditing i p else p
  | ChangeCheckbox i =>
      if mounted p i && negb (isPending p i) then submit i p else p
  | SubmitUpdate i =>
      if mounted p i && isEditing p i && negb (isPending p i)
      then submit i (onClickText i p) else p
  | SubmitDelete i =>
      if mounted p i && negb (isPending p i) then submit i p else p
  | Settled i data => if isPending p i then settle i data p else p
  | Revalidated data => revalidate data p
  end.

(** The page after its first render of [data]: every row has mounted and
    run its effect. *)
Definition mount (data : list Task) : Page :=
  revalidate data {| loaderData := []; editingId := None; submitting := ∅ |}.

Definition steps (evs : list Event) (p : Page) : Page :=
  foldl (λ p ev, step ev p) p evs.

(** ** Vocabulary of the specification *)

(** A numeric text in the plain sense: an optional sign, then decimal
    digits and nothing else, at least one. *)
Definition numericText (s : jsstring) : bool :=
  let rest := (splitSign s).2 in
  bool_decide (rest ≠ []) && forallb (λ c, bool_decide (is_Some (digitValue c))) rest.

(** A text with an integer in front: white space, an optional sign, a
    decimal digit, and then anything. *)
Definition integerPrefixed (s : jsstring) : Prop :=
  ∃ ws sg d rest,
    s = ws ++ sg ++ d :: rest ∧
    Forall (λ c, isWhiteSpace c = true) ws ∧
    (sg = [] ∨ sg = js "-" ∨ sg = js "+") ∧
    is_Some (digitValue d).

(** The five discriminators, and the fields each requires (§4.2). *)
Definition discriminators : list jsstring :=
  js <$> ["add"; "update"; "done"; "undone"; "delete"]%string.

Definition requiresName (a : jsstring) : Prop :=
  a ∈ js <$> ["add"; "update"]%string.

Definition requiresId (a : jsstring) : Prop :=
  a ∈ js <$> ["update"; "done"; "undone"; "delete"]%string.

(** Task ids are unique, and below the next id the store assigns. *)
Definition store_wf (s : Store) : Prop :=
  NoDup (id <$> tasks s) ∧ Forall (λ t, id t < nextId s) (tasks s).

(** ** Sample data *)

Definition milk : Task := {| id := 1; name := js "Buy milk"; done := false |}.
Definition eggs : Task := {| id := 2; name := js "Buy eggs"; done := true |}.

(** A store with two tasks, as two [add]s and a [done] leave it. *)
Definition pantry : Store :=
  {| tasks := [milk; eggs]; nextId := 3; journal := [] |}.

(** The submitted forms of the examples. *)
Definition rename_eggs : FormData :=
  form [("name", "Buy bread"); ("id", "2"); ("action", "update")].
Definition check_milk : FormData := form [("id", "1"); ("action", "done")].
Definition uncheck_milk : FormData := form [("id", "1"); ("action", "undone")].
Definition add_bread : FormData := form [("name", "Buy bread"); ("action", "add")].

(** The two tasks on the page, and [eggs] as the store returns it once
    its checkbox has been cleared. *)
Definition eggs_undone : Task := {| id := 2; name := js "Buy eggs"; done := false |}.

(** The name of [milk] is clicked; then the checkbox of [eggs] is
    changed; then that submission settles. *)
Definition other_row_settles : list Event :=
  [ClickText 1; ChangeCheckbox 2; Settled 2 [milk; eggs_undone]].

(** ** The forms the page submits *)

(** The decimal digits of a natural number, most significant first; [fuel]
    bounds the digits after the first. *)
Fixpoint decimalDigits (fuel : nat) (n : Z) (acc : jsstring) : jsstring :=
  let acc := (0x30 + Z.to_N (n `mod` 10))%N :: acc in
  match fuel with
  | O => acc
  | S fuel => if n <? 10 then acc else decimalDigits fuel (n `div` 10) acc
  end.

Definition decimal (n : Z) : jsstring :=
  decimalDigits (Z.to_nat (Z.log2 n)) n [].

Section Submissions.

(** The digits an engine prints for an integer of magnitude 2^53 or more:
    the shortest that round to it, whose last digit the language leaves to
    the engine. *)
Variable largeDigits : Z → jsstring.

(** [x.toString()], and the string React puts in a [value] attribute. *)
Definition toString (x : number) : jsstring :=
  match x with
  | NaN => js "NaN"
  | Infinity => js "Infinity"
  | NegInfinity => js "-Infinity"
  | Num z =>
      if Z.abs z <? 2 ^ 53 then
        if z <? 0 then js "-" ++ decimal (- z) else decimal z
      else largeDigits z
  end.

(** What the checkbox of a row submits when it changes. *)
Definition checkboxForm (task : Task) : FormData :=
  [(js "id", Text (toString (Num (id task))));
   (js "action", Text (js (if done task then "undone" else "done")))].

(** What the form of a row in edit mode submits through its Update
    button, [value] being the text in its input. The input is [required]:
    the browser submits nothing while it is empty. *)
Definition updateForm (task : Task) (value : jsstring) : FormData :=
  [(js "name", Text value);
   (js "id", Text (toString (Num (id task))));
   (js "action", Text (js "update"))].

(** What the Delete button of a row submits. *)
Definition deleteForm (task : Task) : FormData :=
  [(js "id", Text (toString (Num (id task))));
   (js "action", Text (js "delete"))].

End Submissions.

(** What the form above the list submits through its Add Task button; its
    input is [required] too. *)
Definition addForm (value : jsstring) : FormData :=
  [(js "name", Text value); (js "action", Text (js "add"))].

(** ** The form above the list: [AddTaskForm] *)

(** The text in the input, and whether the form's fetcher has a
    submission. *)
Record AddTaskForm := { input : jsstring; pending : bool }.

Inductive AddEvent :=
| Typed (value : jsstring)
| ClickAdd
| AddSettled.

(** The body of the form's effect: the form is reset, which empties the
    input. React runs it after the form mounts and after every render in
    which [isPending] has changed. *)
Definition resetEffect (f : AddTaskForm) : AddTaskForm :=
  if negb (pending f) then {| input := []; pending := pending f |} else f.

(** What an event does to the form, and the form data it submits. The
    button is disabled while a submission is pending, and the browser
    submits nothing while the [required] input is empty. *)
Definition addStep (ev : AddEvent) (f : AddTaskForm) : AddTaskForm * option FormData :=
  match ev with
  | Typed value => ({| input := value; pending := pending f |}, None)
  | ClickAdd =>
      if negb (pending f) && bool_decide (input f ≠ [])
      then (resetEffect {| input := input f; pending := true |},
            Some (addForm (input f)))
      else (f, None)
  | AddSettled =>
      if pending f
      then (resetEffect {| input := input f; pending := false |}, None)
      else (f, None)
  end.

Definition addMount : AddTaskForm :=
  resetEffect {| input := []; pending := false |}.

(** The form after a sequence of events, and what it submitted, oldest
    first. *)
Fixpoint addRun (evs : list AddEvent) (f : AddTaskForm)
  : AddTaskForm * list FormData :=
  match evs with
  | [] => (f, [])
  | ev :: evs =>
      let '(f', sent) := addStep ev f in
      let '(f'', rest) := addRun evs f' in
      (f'', match sent with Some fd => fd :: rest | None => rest end)
  end.

#[global] Instance AddEvent_eq_dec : EqDecision AddEvent.
Proof. solve_decision. Defined.

(** How many of the events are settlings. *)
Definition settlings (evs : list AddEvent) : nat :=
  length (filter (λ ev, ev = AddSettled) evs).

(** The dispatcher accepts [fd]: it throws none of its messages and makes
    the call [c], the one call of the run. *)
Definition issues (fd : FormData) (s : Store) (c : Call) : Prop :=
  ∃ r s', action fd s = (r, s') ∧
          journal s' = journal s ++ [c] ∧
          ∀ m, r ≠ Throw (Error m).

(** The five messages of the module. *)
Definition messages : list string :=
  ["id must be string"; "id must be numeric string"; "name must be string";
   "name must be at least 1 characters"; "unknown action"]%string.

(** An engine whose digits beyond 2^53 are never asked for. *)
Definition noLargeIds : Z → jsstring := λ _, [].


(** * Properties *)

(** ** Parsing *)

Example parseInt10_examples :
  parseInt10 (js "42") = Num 42 ∧
  parseInt10 (js "  -17px") = Num (-17) ∧
  parseInt10 (js "1e3") = Num 1 ∧
  parseInt10 ([0xA0; 0xFEFF; 0x2003]%N ++ js "+12.5") = Num 12 ∧
  parseInt10 (js "abc") = NaN ∧
  parseInt10 (js "") = NaN ∧
  parseInt10 (js "- 5") = NaN ∧
  parseInt10 (js "9007199254740993") = Num 9007199254740992 ∧
  parseInt10 (js "1" ++ replicate 400 0x30%N) = Infinity.
Proof. by vm_compute. Qed.

Example toNumber_examples :
  toNumber (2 ^ 53 - 1) = Num (2 ^ 53 - 1) ∧
  toNumber (2 ^ 53 + 1) = Num (2 ^ 53) ∧
  toNumber (- (2 ^ 53 + 3)) = Num (- (2 ^ 53 + 4)) ∧
  toNumber (2 ^ 1024 - 2 ^ 970 - 1) = Num (2 ^ 1024 - 2 ^ 971) ∧
  toNumber (2 ^ 1024 - 2 ^ 970) = Infinity ∧
  toNumber (- 2 ^ 1024) = NegInfinity.
Proof. by vm_compute. Qed.

Section Parsing.

Lemma digit_not_space c : is_Some (digitValue c) → isWhiteSpace c = false.
Proof.
  unfold digitValue. case_match eqn:Hd; [intros _ | by intros [? ?]].
  apply andb_true_iff in Hd as [Hlo Hhi].
  apply N.leb_le in Hlo, Hhi. unfold isWhiteSpace.
  repeat (apply orb_false_iff; split);
    try (apply N.eqb_neq; lia).
  apply andb_false_iff; left. apply N.leb_gt. lia.
Qed.

Lemma trimStart_app ws s :
  Forall (λ c, isWhiteSpace c = true) ws → trimStart (ws ++ s) = trimStart s.
Proof.
  induction 1 as [|c ws Hc _ IH]; [done|].
  simpl. by rewrite Hc.
Qed.

Lemma trimStart_split s :
  ∃ ws, s = ws ++ trimStart s ∧ Forall (λ c, isWhiteSpace c = true) ws.
Proof.
  induction s as [|c s [ws [Heq Hws]]]; [by exists []|].
  simpl. destruct (isWhiteSpace c) eqn:Hc.
  - exists (c :: ws). split; [by rewrite <- app_comm_cons, <- Heq | by constructor].
  - by exists [].
Qed.

Lemma trimStart_head c s : isWhiteSpace c = false → trimStart (c :: s) = c :: s.
Proof. intros Hc. simpl. by rewrite Hc. Qed.

Lemma toNumber_not_NaN z : toNumber z ≠ NaN.
Proof. unfold toNumber. repeat case_match; discriminate. Qed.

Lemma leadingDigits_digit d rest :
  is_Some (digitValue d) → leadingDigits (d :: rest) ≠ [].
Proof. intros [v Hv]. simpl. by rewrite Hv. Qed.

Lemma leadingDigits_nonempty s :
  leadingDigits s ≠ [] → ∃ d rest, s = d :: rest ∧ is_Some (digitValue d).
Proof.
  destruct s as [|d rest]; [done|]. simpl.
  destruct (digitValue d) eqn:Hd; [|done]. intros _. by exists d, rest.
Qed.

(** [parseInt] yields a number exactly on the texts with an integer in
    front. *)
Lemma parseInt10_NaN s : parseInt10 s = NaN ↔ ¬ integerPrefixed s.
Proof.
  unfold parseInt10.
  destruct (splitSign (trimStart s)) as [sign rest] eqn:Hsplit.
  split.
  - intros Hnan (ws & sg & d & tl & -> & Hws & Hsg & Hd).
    rewrite trimStart_app in Hsplit by done.
    pose proof (digit_not_space d Hd) as Hdsp.
    assert (leadingDigits rest ≠ []) as Hne.
    { destruct Hsg as [-> | [-> | ->]]; simpl app in Hsplit.
      - rewrite trimStart_head in Hsplit by done.
        unfold splitSign in Hsplit.
        destruct Hd as [v Hv]. pose proof Hv as Hv'.
        unfold digitValue in Hv'. case_match eqn:Hr; [|done].
        apply andb_true_iff in Hr as [Hlo Hhi]. apply N.leb_le in Hlo, Hhi.
        destruct (N.eqb_spec d 0x2D); [lia|].
        destruct (N.eqb_spec d 0x2B); [lia|].
        injection Hsplit as <- <-. apply leadingDigits_digit. by exists v.
      - cbn in Hsplit. injection Hsplit as <- <-. by apply leadingDigits_digit.
      - cbn in Hsplit. injection Hsplit as <- <-. by apply leadingDigits_digit. }
    destruct (leadingDigits rest); [done|]. by eapply toNumber_not_NaN.
  - intros Hno. destruct (leadingDigits rest) eqn:Hds; [done|].
    exfalso. apply Hno.
    destruct (leadingDigits_nonempty rest) as (d & tl & -> & Hd);
      [by rewrite Hds|].
    destruct (trimStart_split s) as (ws & Heq & Hws).
    unfold splitSign in Hsplit.
    destruct (trimStart s) as [|c s'] eqn:Htrim; [done|].
    destruct (N.eqb_spec c 0x2D) as [-> | _].
    { injection Hsplit as _ ->. exists ws, (js "-"), d, tl.
      split_and!; [exact Heq | done | auto | done]. }
    destruct (N.eqb_spec c 0x2B) as [-> | _].
    { injection Hsplit as _ ->. exists ws, (js "+"), d, tl.
      split_and!; [exact Heq | done | auto | done]. }
    injection Hsplit as _ -> ->.
    exists ws, [], d, tl. split_and!; [exact Heq | done | auto | done].
Qed.

End Parsing.

(** ** Validation *)

(** C2, as the code has it: an empty [name] fails with "name must be at
    least 1 characters"; a [name] that is missing or is not text (a file)
    fails with "name must be string". *)
Theorem validateName_failures (fd : FormData) :
  (get fd (js "name") = Some (Text []) →
   validateName fd = Throw (Error "name must be at least 1 characters")) ∧
  (get fd (js "name") = None ∨ (∃ f, get fd (js "name") = Some (Blob f)) →
   validateName fd = Throw (Error "name must be string")).
Proof.
  unfold validateName. split.
  - by intros ->.
  - by intros [-> | [f ->]].
Qed.

Lemma validateName_failures_witness :
  validateName (form [("action", "add"); ("name", "")]) =
    Throw (Error "name must be at least 1 characters") ∧
  validateName (form [("action", "add")]) = Throw (Error "name must be string") ∧
  validateName [(js "name", Blob {| file_name := js "a.txt"; file_bytes := [] |})] =
    Throw (Error "name must be string").
Proof.
  split_and!.
  - apply (proj1 (validateName_failures _)). reflexivity.
  - apply (proj2 (validateName_failures _)). left. reflexivity.
  - apply (proj2 (validateName_failures _)). right. eexists. reflexivity.
Defined.

(** C2 as stated fails where [name] is missing: the failure is "name must
    be string", not "name must be at least 1 characters". *)
Lemma validateName_missing_is_not_too_short :
  get (form [("action", "add")]) (js "name") = None ∧
  validateName (form [("action", "add")]) = Throw (Error "name must be string") ∧
  validateName (form [("action", "add")]) ≠
    Throw (Error "name must be at least 1 characters").
Proof. split_and!; [reflexivity | reflexivity | discriminate]. Qed.

(** A name of one code unit or more is returned as it is. *)
Lemma validateName_returns fd (n : jsstring) :
  get fd (js "name") = Some (Text n) → n ≠ [] → validateName fd = Return n.
Proof. unfold validateName. intros -> Hn. by destruct n. Qed.

(** C3, as the code has it: an [id] text with no integer in front (after
    white space and an optional sign) fails with "id must be numeric
    string"; a text with one is accepted, whatever follows the digits; and
    [id = "42"] gives 42. *)
Theorem validateId_integer_prefix :
  (∀ fd s, get fd (js "id") = Some (Text s) → ¬ integerPrefixed s →
           validateId fd = Throw (Error "id must be numeric string")) ∧
  (∀ fd s, get fd (js "id") = Some (Text s) → integerPrefixed s →
           ∃ n, validateId fd = Return n ∧ n ≠ NaN) ∧
  validateId (form [("id", "42")]) = Return (Num 42).
Proof.
  split_and!.
  - intros fd s Hget Hno. unfold validateId. rewrite Hget.
    apply parseInt10_NaN in Hno. by rewrite Hno.
  - intros fd s Hget Hpre. unfold validateId. rewrite Hget.
    destruct (parseInt10 s) eqn:Hp; simpl; eauto.
    by apply parseInt10_NaN in Hp.
  - reflexivity.
Qed.

Lemma validateId_integer_prefix_witness :
  validateId (form [("id", "abc")]) = Throw (Error "id must be numeric string") ∧
  (∃ n, validateId (form [("id", " +7 apples")]) = Return n ∧ n ≠ NaN).
Proof.
  split.
  - apply (proj1 validateId_integer_prefix _ (js "abc")); [reflexivity|].
    intros (ws & sg & d & rest & Heq & Hws & Hsg & [v Hv]).
    change (js "abc") with [97%N; 98%N; 99%N] in Heq.
    destruct ws as [|c ws].
    + destruct Hsg as [-> | [-> | ->]]; simplify_eq/=.
    + simplify_eq/=. by inversion Hws.
  - apply (proj1 (proj2 validateId_integer_prefix) _ (js " +7 apples"));
      [reflexivity|].
    exists (js " "), (js "+"), 55%N, (js " apples").
    split_and!; [reflexivity | by repeat constructor | auto | by eexists].
Defined.

(** C3 as stated fails on a text that is not numeric but starts with
    digits: "42abc" is accepted as 42. *)
Lemma validateId_accepts_trailing_text :
  numericText (js "42abc") = false ∧
  get (form [("id", "42abc")]) (js "id") = Some (Text (js "42abc")) ∧
  validateId (form [("id", "42abc")]) = Return (Num 42).
Proof. split_and!; reflexivity. Qed.

(** ** The dispatcher *)

(** Two literals of the source that differ, or a membership in a list of
    literals, put in the hypotheses. *)
Ltac literals :=
  repeat match goal with
    | H : requiresName _ |- _ => unfold requiresName in H; cbn [fmap list_fmap] in H
    | H : requiresId _ |- _ => unfold requiresId in H; cbn [fmap list_fmap] in H
    | H : _ ∈ discriminators |- _ => unfold discriminators in H; cbn [fmap list_fmap] in H
    | H : _ ∈ _ :: _ |- _ => apply elem_of_cons in H as [H | H]
    | H : _ ∈ [] |- _ => by apply elem_of_nil in H
    | H : _ ∨ _ |- _ => destruct H as [H | H]
    | H : Some (Text ?a) = Some (Text ?b) |- _ =>
        first [ is_var a; injection H as -> | is_var b; injection H as <-
              | by vm_compute in H ]
    | H : js _ = js _ |- _ => by vm_compute in H
    | H : ?a = js _ |- _ => is_var a; subst a
    end.

Section Dispatch.

Implicit Types (fd : FormData) (s : Store).

Lemma action_add fd :
  get fd (js "action") = Some (Text (js "add")) →
  action fd =
    (let* name := sync (validateName fd) in
     let* _ := prisma_task_create {| create_done := Some false; create_name := name |} in
     ret ()).
Proof. intros H. unfold action. rewrite H. by rewrite decide_True. Qed.

Lemma action_update fd :
  get fd (js "action") = Some (Text (js "update")) →
  action fd =
    (let* name := sync (validateName fd) in
     let* i := sync (validateId fd) in
     let* _ := prisma_task_update {| where_id := i |}
                 {| update_name := Some name; update_done := None |} in
     ret ()).
Proof.
  intros H. unfold action. rewrite H.
  repeat case_decide; literals; done.
Qed.

Lemma action_toggle fd (b : bool) :
  get fd (js "action") = Some (Text (js (if b then "done" else "undone"))) →
  action fd =
    (let* i := sync (validateId fd) in
     let* _ := prisma_task_update {| where_id := i |}
                 {| update_name := None; update_done := Some b |} in
     ret ()).
Proof.
  intros H. unfold action. rewrite H.
  destruct b; repeat case_decide; literals; try done;
    exfalso; match goal with Hno : ¬ (_ ∨ _) |- _ => apply Hno; by auto end.
Qed.

Lemma action_delete fd :
  get fd (js "action") = Some (Text (js "delete")) →
  action fd =
    (let* i := sync (validateId fd) in
     let* _ := prisma_task_delete {| where_id := i |} in
     ret ()).
Proof.
  intros H. unfold action. rewrite H.
  repeat case_decide; literals; done.
Qed.

Lemma action_default fd :
  (∀ a, a ∈ discriminators → get fd (js "action") ≠ Some (Text a)) →
  action fd = throw (Error "unknown action").
Proof.
  intros H. unfold action.
  repeat case_decide; try done; exfalso;
    repeat match goal with Hor : _ ∨ _ |- _ => destruct Hor end;
    match goal with Heq : get fd _ = Some (Text ?a) |- _ =>
      apply (H a); [unfold discriminators; set_solver | done] end.
Qed.

(** The discriminator is one of the five, or none of them. *)
Lemma discriminator_cases fd :
  get fd (js "action") = Some (Text (js "add")) ∨
  get fd (js "action") = Some (Text (js "update")) ∨
  (∃ b : bool, get fd (js "action") = Some (Text (js (if b then "done" else "undone")))) ∨
  get fd (js "action") = Some (Text (js "delete")) ∨
  (∀ a, a ∈ discriminators → get fd (js "action") ≠ Some (Text a)).
Proof.
  destruct (decide (get fd (js "action") = Some (Text (js "add")))); [by left|].
  destruct (decide (get fd (js "action") = Some (Text (js "update")))); [by right; left|].
  destruct (decide (get fd (js "action") = Some (Text (js "done"))));
    [by right; right; left; exists true|].
  destruct (decide (get fd (js "action") = Some (Text (js "undone"))));
    [by right; right; left; exists false|].
  destruct (decide (get fd (js "action") = Some (Text (js "delete"))));
    [by right; right; right; left|].
  right; right; right; right. intros a Ha Hget. literals; congruence.
Qed.

End Dispatch.

(** Running a branch: the definitions of the monad and of the store calls,
    unfolded. *)
Ltac run :=
  unfold bind, sync, ret, throw, prisma_task_create, prisma_task_update,
    prisma_task_delete, record, with_tasks; cbn [tasks nextId journal].

Section Failures.

Implicit Types (fd : FormData) (s : Store).

(** C4: when the validation of a field the action requires fails, the
    dispatcher throws that failure (of [name] first where both fail) and
    hands the store back as it received it, no call made; and whenever a
    run of the dispatcher leaves the store other than it found it, one
    call was made and every required validation had returned. *)
Theorem validation_precedes_store fd s :
  (∀ a, get fd (js "action") = Some (Text a) →
        (requiresName a ∧ (∃ e, validateName fd = Throw e)) ∨
        (requiresId a ∧ (∃ e, validateId fd = Throw e)) →
        ∃ e, action fd s = (Throw e, s) ∧
             ((requiresName a ∧ validateName fd = Throw e) ∨
              (requiresId a ∧ validateId fd = Throw e))) ∧
  (∀ r s', action fd s = (r, s') → s' ≠ s →
        (∃ c, journal s' = journal s ++ [c]) ∧
        ∀ a, get fd (js "action") = Some (Text a) →
             (requiresName a → ∃ n, validateName fd = Return n) ∧
             (requiresId a → ∃ i, validateId fd = Return i)).
Proof.
  split.
  - intros a Hget Hfail.
    destruct Hfail as [[Hreq [e He]] | [Hreq [e He]]];
      pose proof (conj I Hreq) as Hkeep; literals; destruct Hkeep as [_ Hkeep].
    + exists e. split; [|auto]. rewrite action_add by done. run. by rewrite He.
    + exists e. split; [|auto]. rewrite action_update by done. run. by rewrite He.
    + destruct (validateName fd) as [n | e'] eqn:Hn.
      * exists e. split; [|auto]. rewrite action_update by done. run.
        by rewrite Hn, He.
      * exists e'. split; [|left; split; [|done]].
        { rewrite action_update by done. run. by rewrite Hn. }
        unfold requiresName. cbn. apply elem_of_cons; right. apply elem_of_cons; by left.
    + exists e. split; [|auto]. rewrite (action_toggle fd true) by done. run.
      by rewrite He.
    + exists e. split; [|auto]. rewrite (action_toggle fd false) by done. run.
      by rewrite He.
    + exists e. split; [|auto]. rewrite action_delete by done. run. by rewrite He.
  - intros r s' Hrun Hne.
    destruct (discriminator_cases fd) as [H | [H | [[b H] | [H | H]]]].
    + rewrite action_add in Hrun by done. revert Hrun. run.
      destruct (validateName fd) as [n | e] eqn:Hn; intros [= <- <-]; [|done].
      split; [by eexists|]. intros a Ha. rewrite H in Ha.
      split; intros Hreq; literals; eauto.
    + rewrite action_update in Hrun by done. revert Hrun. run.
      destruct (validateName fd) as [n | e] eqn:Hn; [|by intros [= <- <-]].
      destruct (validateId fd) as [i | e] eqn:Hi; [|by intros [= <- <-]].
      intros Hrun.
      split.
      * destruct (list_find _ _) as [[k t]|]; injection Hrun as <- <-; by eexists.
      * intros a Ha. rewrite H in Ha. split; intros Hreq; literals; eauto.
    + rewrite (action_toggle fd b) in Hrun by done. revert Hrun. run.
      destruct (validateId fd) as [i | e] eqn:Hi; [|by intros [= <- <-]].
      intros Hrun.
      split.
      * destruct (list_find _ _) as [[k t]|]; injection Hrun as <- <-; by eexists.
      * intros a Ha. rewrite H in Ha.
        split; intros Hreq; destruct b; literals; eauto.
    + rewrite action_delete in Hrun by done. revert Hrun. run.
      destruct (validateId fd) as [i | e] eqn:Hi; [|by intros [= <- <-]].
      intros Hrun.
      split.
      * destruct (list_find _ _) as [[k t]|]; injection Hrun as <- <-; by eexists.
      * intros a Ha. rewrite H in Ha. split; intros Hreq; literals; eauto.
    + rewrite action_default in Hrun by done. by injection Hrun as <- <-.
Qed.

(** C9: a discriminator that is missing, is not text, or is none of the
    five makes the dispatcher throw "unknown action", the store handed
    back as it was received, no call made. *)
Theorem unknown_action_fails fd s :
  (∀ a, a ∈ discriminators → get fd (js "action") ≠ Some (Text a)) →
  action fd s = (Throw (Error "unknown action"), s).
Proof. intros H. by rewrite action_default. Qed.

(** The failures of the two validators are told apart by their
    messages. *)
Lemma validator_failures_differ fd en ei :
  validateName fd = Throw en → validateId fd = Throw ei → en ≠ ei.
Proof.
  unfold validateName, validateId. intros Hn Hi.
  repeat case_match; simplify_eq; discriminate.
Qed.

(** C10: in the update branch [name] is validated first: when both
    validations fail, the dispatcher throws the failure of [name], which
    is not the failure of [id]. *)
Theorem update_validates_name_first fd s en ei :
  get fd (js "action") = Some (Text (js "update")) →
  validateName fd = Throw en →
  validateId fd = Throw ei →
  action fd s = (Throw en, s) ∧ en ≠ ei.
Proof.
  intros Hget Hn Hi. split; [|by eapply validator_failures_differ].
  rewrite action_update by done. run. by rewrite Hn.
Qed.

End Failures.

Lemma validation_precedes_store_witness :
  (∃ e, action (form [("action", "delete"); ("id", "two")]) pantry = (Throw e, pantry) ∧
        ((requiresName (js "delete") ∧
          validateName (form [("action", "delete"); ("id", "two")]) = Throw e) ∨
         (requiresId (js "delete") ∧
          validateId (form [("action", "delete"); ("id", "two")]) = Throw e))) ∧
  (∃ c, journal (action add_bread pantry).2 = journal pantry ++ [c]).
Proof.
  split.
  - apply (proj1 (validation_precedes_store _ pantry) (js "delete")); [reflexivity|].
    right. split; [|eexists; reflexivity].
    unfold requiresId. cbn. do 3 (apply elem_of_cons; right). apply elem_of_cons; by left.
  - apply (proj2 (validation_precedes_store add_bread pantry)
             (action add_bread pantry).1 (action add_bread pantry).2).
    + by destruct (action add_bread pantry).
    + intros Heq. apply (f_equal nextId) in Heq. by vm_compute in Heq.
Defined.

Lemma unknown_action_fails_witness :
  action (form [("action", "bogus"); ("id", "1")]) pantry =
    (Throw (Error "unknown action"), pantry) ∧
  action (form [("id", "1"); ("name", "x")]) pantry =
    (Throw (Error "unknown action"), pantry).
Proof.
  split; apply unknown_action_fails; intros a Ha Hget; literals;
    vm_compute in Hget; discriminate.
Defined.

Lemma update_validates_name_first_witness :
  action (form [("action", "update"); ("id", "one"); ("name", "")]) pantry =
    (Throw (Error "name must be at least 1 characters"), pantry) ∧
  Error "name must be at least 1 characters" ≠ Error "id must be numeric string".
Proof.
  apply update_validates_name_first; reflexivity.
Defined.

(** ** The store *)

Section Rows.

Implicit Types (fd : FormData) (s : Store) (l : list Task) (t : Task).

(** With unique ids, the row at [k] is the one its id selects. *)
Lemma find_selected l k t :
  NoDup (id <$> l) → l !! k = Some t →
  list_find (selects {| where_id := Num (id t) |}) l = Some (k, t).
Proof.
  intros Hnd Hk. apply list_find_Some. split_and!; [done | done |].
  intros j y Hj Hlt Hsel. unfold selects in Hsel. simpl in Hsel.
  injection Hsel as Hid.
  assert (k = j); [|lia].
  eapply (NoDup_lookup _ _ _ (id t) Hnd); rewrite list_lookup_fmap.
  - by rewrite Hk.
  - by rewrite Hj, Hid.
Qed.

Lemma ids_insert l k t t' :
  l !! k = Some t → id t' = id t → id <$> <[k := t']> l = id <$> l.
Proof.
  intros Hk Hid. rewrite list_fmap_insert, Hid.
  apply list_insert_id. by rewrite list_lookup_fmap, Hk.
Qed.

(** What [update] does to the rows, whatever it finds. *)
Lemma update_rows w data s :
  let '(r, s') := prisma_task_update w data s in
  nextId s' = nextId s ∧
  journal s' = journal s ++ [TaskUpdate w data] ∧
  match list_find (selects w) (tasks s) with
  | Some (k, t) => r = Return (patch data t) ∧ tasks s' = <[k := patch data t]> (tasks s)
  | None => r = Throw NotFoundError ∧ tasks s' = tasks s
  end.
Proof. run. by destruct (list_find _ _) as [[k t]|]. Qed.

(** C6: an update with a valid [name] and [id] leaves every row its id
    and its [done], changes no row but one the id selects, whose name it
    replaces, and leaves the next id alone; where ids are unique and a
    row has that id, the dispatcher returns, that row has the new name
    and every other position holds what it held. *)
Theorem update_replaces_only_name fd s n w :
  get fd (js "action") = Some (Text (js "update")) →
  validateName fd = Return n →
  validateId fd = Return w →
  ∃ r s', action fd s = (r, s') ∧
    Forall2 (λ t t', id t' = id t ∧ done t' = done t ∧
                     (t' = t ∨ (w = Num (id t) ∧ name t' = n)))
            (tasks s) (tasks s') ∧
    nextId s' = nextId s ∧
    (∀ k t, NoDup (id <$> tasks s) → tasks s !! k = Some t → w = Num (id t) →
            r = Return () ∧
            tasks s' !! k = Some {| id := id t; name := n; done := done t |} ∧
            ∀ j, j ≠ k → tasks s' !! j = tasks s !! j).
Proof.
  intros Hget Hn Hw. rewrite action_update by done.
  unfold bind at 1 2, sync. rewrite Hn, Hw. unfold bind, ret.
  pose proof (update_rows {| where_id := w |}
                {| update_name := Some n; update_done := None |} s) as Hup.
  destruct (prisma_task_update _ _ s) as [r s'].
  destruct Hup as (Hnext & _ & Hrows).
  destruct (list_find _ (tasks s)) as [[k0 t0]|] eqn:Hfind.
  - destruct Hrows as [-> Hrows].
    apply list_find_Some in Hfind as (Hk0 & Hsel & _).
    eexists _, _. split; [done|]. split_and!; [| done |].
    + rewrite Hrows. apply Forall2_same_length_lookup.
      split; [by rewrite length_insert|].
      intros j x y Hx Hy. destruct (decide (j = k0)) as [-> | Hne].
      * rewrite list_lookup_insert_eq in Hy by by eapply lookup_lt_Some.
        simplify_eq. unfold selects in Hsel. simpl in Hsel. auto.
      * rewrite list_lookup_insert_ne in Hy by done. simplify_eq. auto.
    + intros k t Hnd Hk ->.
      unfold selects in Hsel. simpl in Hsel. injection Hsel as Hid.
      assert (k = k0) as ->.
      { eapply (NoDup_lookup _ _ _ (id t) Hnd); rewrite list_lookup_fmap;
          [by rewrite Hk | by rewrite Hk0, Hid]. }
      simplify_eq. rewrite Hrows. split_and!; [done | |].
      * by rewrite list_lookup_insert_eq by by eapply lookup_lt_Some.
      * intros j Hne. by rewrite list_lookup_insert_ne.
  - destruct Hrows as [-> Hrows].
    eexists _, _. split; [done|]. split_and!; [| done |].
    + rewrite Hrows. apply Forall2_same_length_lookup. split; [done|].
      intros j x y Hx Hy. simplify_eq. auto.
    + intros k t Hnd Hk ->.
      by rewrite (find_selected _ _ _ Hnd Hk) in Hfind.
Qed.

(** A [done] or [undone] on the row at [k]: its [done] is set, and
    nothing else changes. *)
Lemma toggle_at fd (b : bool) s k t :
  get fd (js "action") = Some (Text (js (if b then "done" else "undone"))) →
  validateId fd = Return (Num (id t)) →
  NoDup (id <$> tasks s) →
  tasks s !! k = Some t →
  action fd s =
    (Return (),
     {| tasks := <[k := {| id := id t; name := name t; done := b |}]> (tasks s);
        nextId := nextId s;
        journal := journal s ++ [TaskUpdate {| where_id := Num (id t) |}
                                   {| update_name := None; update_done := Some b |}] |}).
Proof.
  intros Hget Hid Hnd Hk. rewrite (action_toggle fd b) by done. run.
  by rewrite Hid, (find_selected _ _ _ Hnd Hk).
Qed.

(** C7: [done] and then [undone] on an existing task both return; the
    task keeps its name throughout, its [done] is true after the first
    and false after the second, and every other position holds what it
    held. *)
Theorem done_then_undone fd1 fd2 s k t :
  get fd1 (js "action") = Some (Text (js "done")) →
  get fd2 (js "action") = Some (Text (js "undone")) →
  validateId fd1 = Return (Num (id t)) →
  validateId fd2 = Return (Num (id t)) →
  NoDup (id <$> tasks s) →
  tasks s !! k = Some t →
  ∃ s1 s2,
    action fd1 s = (Return (), s1) ∧
    action fd2 s1 = (Return (), s2) ∧
    tasks s1 !! k = Some {| id := id t; name := name t; done := true |} ∧
    tasks s2 !! k = Some {| id := id t; name := name t; done := false |} ∧
    (∀ j, j ≠ k → tasks s2 !! j = tasks s !! j) ∧
    length (tasks s2) = length (tasks s).
Proof.
  intros Hdone Hundone Hid1 Hid2 Hnd Hk.
  pose proof (lookup_lt_Some _ _ _ Hk) as Hlt.
  set (t1 := {| id := id t; name := name t; done := true |}).
  eexists _, _. split; [by apply (toggle_at fd1 true s k t)|].
  split.
  { apply (toggle_at fd2 false _ k t1); [done | done | |]; cbn [tasks].
    - by rewrite (ids_insert _ _ t).
    - by rewrite list_lookup_insert_eq. }
  cbn [tasks id name]. split_and!.
  - by rewrite list_lookup_insert_eq.
  - by rewrite list_lookup_insert_eq by by rewrite length_insert.
  - intros j Hne. by rewrite !list_lookup_insert_ne.
  - by rewrite !length_insert.
Qed.

(** C8: an [add] with a valid name returns and appends one task to the
    rows, with that name, [done] false and the id the store assigns;
    the call is the one [create]; the next full read returns the rows
    with the task in them; and in a well-formed store the id is new and
    the store stays well-formed. The same for the name "Buy milk". *)
Theorem add_creates_one_task :
  (∀ fd n s,
     get fd (js "action") = Some (Text (js "add")) →
     validateName fd = Return n →
     ∃ t s',
       action fd s = (Return (), s') ∧
       tasks s' = tasks s ++ [t] ∧
       name t = n ∧ done t = false ∧ id t = nextId s ∧
       journal s' = journal s ++
         [TaskCreate {| create_done := Some false; create_name := n |}] ∧
       (∃ s'', loader s' = (Return (tasks s ++ [t]), s'')) ∧
       (store_wf s → (id t ∉ id <$> tasks s) ∧ store_wf s')) ∧
  (∀ s, ∃ t s',
     action (form [("action", "add"); ("name", "Buy milk")]) s = (Return (), s') ∧
     tasks s' = tasks s ++ [t] ∧
     name t = js "Buy milk" ∧ done t = false ∧
     ∃ l s'', loader s' = (Return l, s'') ∧ t ∈ l).
Proof.
  assert (∀ fd n s,
     get fd (js "action") = Some (Text (js "add")) →
     validateName fd = Return n →
     ∃ t s',
       action fd s = (Return (), s') ∧
       tasks s' = tasks s ++ [t] ∧
       name t = n ∧ done t = false ∧ id t = nextId s ∧
       journal s' = journal s ++
         [TaskCreate {| create_done := Some false; create_name := n |}] ∧
       (∃ s'', loader s' = (Return (tasks s ++ [t]), s'')) ∧
       (store_wf s → (id t ∉ id <$> tasks s) ∧ store_wf s')) as Hadd.
  { intros fd n s Hget Hn. rewrite action_add by done. run. rewrite Hn.
    eexists _, _. split; [done|]. cbn [tasks nextId journal id name done].
    split_and!; try done.
    - by eexists.
    - intros [Hnd Hlt]. assert (nextId s ∉ id <$> tasks s) as Hnew.
      { intros (t & Hid & Hin)%list_elem_of_fmap.
        rewrite Forall_forall in Hlt. specialize (Hlt t Hin). lia. }
      split; [done|]. split; cbn [tasks nextId].
      + rewrite fmap_app. apply NoDup_app. split_and!; [done | | apply NoDup_singleton].
        intros x Hx ->%list_elem_of_singleton. done.
      + apply Forall_app. split.
        * eapply Forall_impl; [done|]. intros; simpl in *; lia.
        * apply Forall_singleton. simpl. lia. }
  split; [done|].
  intros s.
  destruct (Hadd (form [("action", "add"); ("name", "Buy milk")]) (js "Buy milk") s)
    as (t & s' & Hrun & Hrows & Hname & Hdone & _ & _ & [s'' Hread] & _);
    [reflexivity | reflexivity |].
  exists t, s'. split_and!; [done..|].
  exists (tasks s ++ [t]), s''. split; [done|]. set_solver.
Qed.

End Rows.

Lemma pantry_ids_unique : NoDup (id <$> tasks pantry).
Proof. apply (bool_decide_unpack _). by vm_compute. Qed.

Lemma update_replaces_only_name_witness :
  ∃ s', action rename_eggs pantry = (Return (), s') ∧
        tasks s' !! 1%nat = Some {| id := 2; name := js "Buy bread"; done := true |} ∧
        tasks s' !! 0%nat = Some milk.
Proof.
  destruct (update_replaces_only_name rename_eggs pantry (js "Buy bread") (Num 2))
    as (r & s' & Hrun & _ & _ & Hrow); [reflexivity..|].
  destruct (Hrow 1%nat eggs) as (-> & Hk & Hothers);
    [apply pantry_ids_unique | reflexivity | reflexivity |].
  exists s'. split_and!; [exact Hrun | exact Hk |].
  by rewrite (Hothers 0%nat).
Defined.

Lemma done_then_undone_witness :
  ∃ s1 s2,
    action check_milk pantry = (Return (), s1) ∧
    action uncheck_milk s1 = (Return (), s2) ∧
    tasks s1 !! 0%nat = Some {| id := 1; name := js "Buy milk"; done := true |} ∧
    tasks s2 !! 0%nat = Some {| id := 1; name := js "Buy milk"; done := false |} ∧
    (∀ j, j ≠ 0%nat → tasks s2 !! j = tasks pantry !! j) ∧
    length (tasks s2) = length (tasks pantry).
Proof.
  apply (done_then_undone check_milk uncheck_milk pantry 0 milk);
    [reflexivity | reflexivity | reflexivity | reflexivity
    | apply pantry_ids_unique | reflexivity].
Defined.

Lemma add_creates_one_task_witness :
  ∃ t s', action add_bread pantry = (Return (), s') ∧
          tasks s' = [milk; eggs; t] ∧
          name t = js "Buy bread" ∧ done t = false ∧ id t = 3.
Proof.
  destruct (proj1 add_creates_one_task add_bread (js "Buy bread") pantry)
    as (t & s' & Hrun & Hrows & Hname & Hdone & Hid & _); [reflexivity..|].
  by exists t, s'.
Defined.

(** ** The page *)

Section Editing.

Implicit Types (p : Page) (l : list Task) (ev : Event).

Lemma isEditing_inj p a b : isEditing p a = true → isEditing p b = true → a = b.
Proof.
  unfold isEditing. intros Ha%bool_decide_eq_true Hb%bool_decide_eq_true.
  congruence.
Qed.

(** The rows of [l] whose [isEditing] prop is true. *)
Lemma editing_rows_nil p l :
  (∀ t, t ∈ l → isEditing p (id t) = false) →
  filter (λ row : Task * bool, row.2 = true)
         ((λ task, (task, isEditing p (id task))) <$> l) = [].
Proof.
  induction l as [|t l IH]; intros Hl; [done|].
  rewrite fmap_cons, filter_cons_False.
  - apply IH. intros t' Ht'. apply Hl. by right.
  - simpl. rewrite Hl by by left. done.
Qed.

Lemma editing_rows_le p l :
  NoDup (id <$> l) →
  (length (filter (λ row : Task * bool, row.2 = true)
                  ((λ task, (task, isEditing p (id task))) <$> l)) ≤ 1)%nat.
Proof.
  induction l as [|t l IH]; intros Hnd; [simpl; lia|].
  rewrite fmap_cons in Hnd. apply NoDup_cons in Hnd as [Hnew Hnd].
  rewrite fmap_cons. destruct (isEditing p (id t)) eqn:Ht.
  - rewrite filter_cons_True by done.
    rewrite editing_rows_nil; [simpl; lia|].
    intros t' Ht'. destruct (isEditing p (id t')) eqn:Ht''; [|done].
    exfalso. apply Hnew. rewrite (isEditing_inj p _ _ Ht Ht'').
    by apply list_elem_of_fmap_2.
  - rewrite filter_cons_False by (simpl; congruence). by apply IH.
Qed.

(** C5: on every page whose tasks have unique ids at most one rendered
    row has its [isEditing] prop true; two ids that are both editing are
    one id; and a click on the name of a mounted row [a] that is not
    pending, while row [b] is editing, leaves [a] editing and [b] not. *)
Theorem at_most_one_row_editing :
  (∀ p, NoDup (id <$> loaderData p) →
        (length (filter (λ row : Task * bool, row.2 = true) (render p)) ≤ 1)%nat) ∧
  (∀ p a b, isEditing p a = true → isEditing p b = true → a = b) ∧
  (∀ p a b, a ≠ b → mounted p a = true → isPending p a = false →
            isEditing p b = true →
            isEditing (step (ClickText a) p) a = true ∧
            isEditing (step (ClickText a) p) b = false).
Proof.
  split_and!.
  - intros p Hnd. by apply editing_rows_le.
  - apply isEditing_inj.
  - intros p a b Hne Hm Hp Hb. simpl. rewrite Hm. unfold onClickText.
    rewrite Hp. simpl. unfold isEditing, onStartEditing, setEditingId. simpl.
    split; [by apply bool_decide_eq_true | apply bool_decide_eq_false; congruence].
Qed.

(** Effects change [editingId] only. *)
Lemma effects_frame (fresh : list Z) p :
  loaderData (foldr effect p fresh) = loaderData p ∧
  submitting (foldr effect p fresh) = submitting p.
Proof.
  induction fresh as [|i fresh [IH1 IH2]]; [done|].
  simpl. unfold effect, onFinishEditing, setEditingId.
  by destruct (negb _).
Qed.

(** When the submission of a row that is still on the page settles, no
    row is editing any more, whichever row was. *)
Lemma settled_clears_editing p b data :
  isPending p b = true → mounted p b = true → b ∈ id <$> data →
  editingId (step (Settled b data) p) = None.
Proof.
  intros Hp Hm Hb. simpl. rewrite Hp. unfold settle. rewrite Hm.
  set (p' := revalidate data _).
  assert (loaderData p' = data ∧ submitting p' = submitting p ∖ {[b]}) as [Hdata Hsub].
  { unfold p', revalidate. apply effects_frame. }
  assert (mounted p' b = true) as ->.
  { unfold mounted. rewrite Hdata. by apply bool_decide_eq_true. }
  simpl. unfold effect, isPending. rewrite Hsub.
  rewrite bool_decide_eq_false_2; [done|].
  intros [_ Hn]%elem_of_difference. apply Hn. by apply elem_of_singleton.
Qed.

(** C1 on the code: [milk] is editing when the checkbox of [eggs] is
    changed, and still is while that submission is pending; when it
    settles, [milk] is editing no more, though it was not cancelled, has
    submitted nothing, and no other row has entered editing. *)
Theorem editing_cleared_by_other_row :
  isEditing (steps (take 1 other_row_settles) (mount [milk; eggs])) 1 = true ∧
  isEditing (steps (take 2 other_row_settles) (mount [milk; eggs])) 1 = true ∧
  isPending (steps (take 2 other_row_settles) (mount [milk; eggs])) 1 = false ∧
  isEditing (steps other_row_settles (mount [milk; eggs])) 1 = false ∧
  editingId (steps other_row_settles (mount [milk; eggs])) = None.
Proof. by vm_compute. Qed.

(** A submission changes [submitting] only. *)
Lemma submit_editingId p i : editingId (submit i p) = editingId p.
Proof.
  unfold submit, effect, isPending. cbn [submitting].
  rewrite bool_decide_eq_true_2; [done|].
  apply elem_of_union; right. by apply elem_of_singleton.
Qed.

(** X13: the events after which a row that was editing is editing no
    more: its own Cancel, a click on the name of another row, the settling
    of a submission of any row, and a new read of the loaders. *)
Lemma editing_exits p a ev :
  isEditing p a = true →
  isEditing (step ev p) a = false →
  ev = ClickCancel a ∨
  (∃ b, b ≠ a ∧ ev = ClickText b) ∨
  (∃ b data, ev = Settled b data) ∨
  (∃ data, ev = Revalidated data).
Proof.
  intros Ha Hout. destruct ev as [b | b | b | b | b | b data | data]; simpl in Hout.
  - right; left. exists b. split; [|done]. intros ->.
    unfold onClickText, onStartEditing, setEditingId, isEditing in *.
    repeat case_match; simpl in *; try congruence.
    by rewrite bool_decide_eq_true_2 in Hout.
  - left. destruct (mounted p b); simpl in Hout; [|congruence].
    destruct (isEditing p b) eqn:Hb; simpl in Hout; [|congruence].
    by rewrite (isEditing_inj p _ _ Ha Hb).
  - exfalso. destruct (_ && _); [|congruence].
    unfold isEditing in *. rewrite submit_editingId in Hout. congruence.
  - exfalso. destruct (mounted p b); simpl in Hout; [|congruence].
    destruct (isEditing p b) eqn:Hb; simpl in Hout; [|congruence].
    destruct (negb (isPending p b)) eqn:Hp; simpl in Hout; [|congruence].
    rewrite <- (isEditing_inj p _ _ Ha Hb) in *.
    unfold isEditing in Hout. rewrite submit_editingId in Hout.
    unfold onClickText, onStartEditing, setEditingId in Hout.
    rewrite Hp in Hout. simpl in Hout.
    by rewrite bool_decide_eq_true_2 in Hout.
  - exfalso. destruct (_ && _); [|congruence].
    unfold isEditing in *. rewrite submit_editingId in Hout. congruence.
  - right; right; left. by exists b, data.
  - right; right; right. by exists data.
Qed.

(** X14: while a row is pending, its checkbox, its buttons and its name
    column do nothing. *)
Lemma pending_row_ignores_controls p i :
  isPending p i = true →
  step (ClickText i) p = p ∧ step (ClickCancel i) p = p ∧
  step (ChangeCheckbox i) p = p ∧ step (SubmitUpdate i) p = p ∧
  step (SubmitDelete i) p = p.
Proof.
  intros Hp. simpl. unfold onClickText. rewrite Hp. simpl.
  rewrite !andb_false_r. by destruct (mounted p i).
Qed.

End Editing.

Lemma editing_exits_witness :
  [ClickText 1; ChangeCheckbox 2; Settled 2 [milk; eggs_undone]] !! 2%nat =
    Some (Settled 2 [milk; eggs_undone]) ∧
  (Settled 2 [milk; eggs_undone] = ClickCancel 1 ∨
   (∃ b, b ≠ 1 ∧ Settled 2 [milk; eggs_undone] = ClickText b) ∨
   (∃ b data, Settled 2 [milk; eggs_undone] = Settled b data) ∨
   (∃ data, Settled 2 [milk; eggs_undone] = Revalidated data)).
Proof.
  split; [reflexivity|].
  apply (editing_exits (steps [ClickText 1; ChangeCheckbox 2] (mount [milk; eggs])) 1);
    by vm_compute.
Defined.

Lemma pending_row_ignores_controls_witness :
  step (ChangeCheckbox 2) (steps [ChangeCheckbox 2] (mount [milk; eggs])) =
    steps [ChangeCheckbox 2] (mount [milk; eggs]) ∧
  step (SubmitDelete 2) (steps [ChangeCheckbox 2] (mount [milk; eggs])) =
    steps [ChangeCheckbox 2] (mount [milk; eggs]).
Proof.
  destruct (pending_row_ignores_controls
              (steps [ChangeCheckbox 2] (mount [milk; eggs])) 2)
    as (_ & _ & Hbox & _ & Hdel); [by vm_compute|].
  by split.
Defined.

Lemma at_most_one_row_editing_witness :
  (length (filter (λ row : Task * bool, row.2 = true)
             (render (steps [ClickText 2; ClickText 1] (mount [milk; eggs])))) ≤ 1)%nat ∧
  isEditing (step (ClickText 1) (steps [ClickText 2] (mount [milk; eggs]))) 1 = true ∧
  isEditing (step (ClickText 1) (steps [ClickText 2] (mount [milk; eggs]))) 2 = false.
Proof.
  split.
  - apply (proj1 at_most_one_row_editing). apply (bool_decide_unpack _). by vm_compute.
  - apply (proj2 (proj2 at_most_one_row_editing)); [lia | by vm_compute..].
Defined.

(** ** Numerals *)

Section Numerals.

Implicit Types (n z : Z) (s acc rest : jsstring).

Lemma digitValue_code d :
  0 ≤ d < 10 → digitValue (0x30 + Z.to_N d)%N = Some d.
Proof.
  intros Hd. unfold digitValue.
  assert ((0x30 <=? 0x30 + Z.to_N d)%N && (0x30 + Z.to_N d <=? 0x39)%N = true) as ->.
  { apply andb_true_iff. split; apply N.leb_le; lia. }
  f_equal. lia.
Qed.

Lemma mathInt_snoc (vs : list Z) d : mathInt (vs ++ [d]) = 10 * mathInt vs + d.
Proof. unfold mathInt. by rewrite fold_left_app. Qed.

(** The digits [decimalDigits] puts in front of [acc] are decimal digits,
    and their value is the number, when the fuel covers it. *)
Lemma decimalDigits_value (fuel : nat) n acc :
  0 ≤ n < 2 ^ (Z.of_nat fuel + 1) →
  ∃ ds vs,
    decimalDigits fuel n acc = ds ++ acc ∧
    vs ≠ [] ∧ mathInt vs = n ∧
    ∀ rest, leadingDigits (ds ++ rest) = vs ++ leadingDigits rest.
Proof.
  revert n acc. induction fuel as [|fuel IH]; intros n acc Hn.
  - assert (n `mod` 10 = n) as Hmod by (apply Z.mod_small; simpl in Hn; lia).
    exists [(0x30 + Z.to_N (n `mod` 10))%N], [n]. split_and!; [done | done | done |].
    intros rest. simpl. rewrite Hmod, digitValue_code by (simpl in Hn; lia). done.
  - simpl. destruct (Z.ltb_spec n 10) as [Hlt | Hge].
    + assert (n `mod` 10 = n) as Hmod by (apply Z.mod_small; lia).
      exists [(0x30 + Z.to_N (n `mod` 10))%N], [n]. split_and!; [done | done | done |].
      intros rest. simpl. by rewrite Hmod, digitValue_code by lia.
    + destruct (IH (n `div` 10) ((0x30 + Z.to_N (n `mod` 10))%N :: acc))
        as (ds & vs & Heq & Hne & Hval & Hlead).
      { split; [apply Z.div_pos; lia|].
        apply Z.div_lt_upper_bound; [lia|].
        replace (Z.of_nat (S fuel) + 1) with (Z.succ (Z.of_nat fuel + 1)) in Hn by lia.
        rewrite Z.pow_succ_r in Hn by lia. lia. }
      exists (ds ++ [(0x30 + Z.to_N (n `mod` 10))%N]), (vs ++ [n `mod` 10]).
      split_and!.
      * by rewrite Heq, <- app_assoc.
      * by destruct vs.
      * rewrite mathInt_snoc, Hval. symmetry. apply Z.div_mod. lia.
      * intros rest. rewrite <- !app_assoc, Hlead. simpl.
        by rewrite digitValue_code by (apply Z.mod_pos_bound; lia).
Qed.

Lemma decimal_value n :
  0 ≤ n →
  ∃ vs, vs ≠ [] ∧ mathInt vs = n ∧
        ∀ rest, leadingDigits (decimal n ++ rest) = vs ++ leadingDigits rest.
Proof.
  intros Hn. unfold decimal.
  destruct (decimalDigits_value (Z.to_nat (Z.log2 n)) n []) as (ds & vs & Heq & H).
  { split; [done|]. rewrite Z2Nat.id by apply Z.log2_nonneg.
    destruct (decide (n = 0)) as [-> | Hpos]; [done|].
    replace (Z.log2 n + 1) with (Z.succ (Z.log2 n)) by lia.
    apply Z.log2_spec. lia. }
  exists vs. rewrite Heq, app_nil_r. done.
Qed.

(** A numeral starts with a digit. *)
Lemma decimal_head n rest :
  0 ≤ n → ∃ c tl, decimal n ++ rest = c :: tl ∧ is_Some (digitValue c).
Proof.
  intros Hn. destruct (decimal_value n Hn) as (vs & Hne & _ & Hlead).
  apply leadingDigits_nonempty. rewrite Hlead. by destruct vs.
Qed.

Lemma toNumber_safe z : Z.abs z < 2 ^ 53 → toNumber z = Num z.
Proof.
  intros Hz. unfold toNumber.
  by destruct (Z.ltb_spec (Z.abs z) (2 ^ 53)); [|lia].
Qed.

(** [parseInt] reads back what [toString] prints for an integer below 2^53
    in magnitude, whatever white space stands before it and whatever text
    that starts with no digit stands after it. *)
Lemma parseInt10_toString large z ws rest :
  Z.abs z < 2 ^ 53 →
  Forall (λ c, isWhiteSpace c = true) ws →
  leadingDigits rest = [] →
  parseInt10 (ws ++ toString large (Num z) ++ rest) = Num z.
Proof.
  intros Hz Hws Hrest. unfold parseInt10. rewrite trimStart_app by done.
  unfold toString. destruct (Z.ltb_spec (Z.abs z) (2 ^ 53)) as [_|]; [|lia].
  destruct (Z.ltb_spec z 0) as [Hneg | Hpos].
  - change (js "-") with [0x2D%N]. cbn [app]. rewrite trimStart_head by done.
    unfold splitSign. rewrite N.eqb_refl.
    destruct (decimal_value (- z)) as (vs & Hne & Hval & Hlead); [lia|].
    rewrite Hlead, Hrest, app_nil_r.
    destruct vs as [|v vs]; [done|]. rewrite Hval.
    replace (-1 * - z) with z by lia. by apply toNumber_safe.
  - destruct (decimal_head z rest Hpos) as (c & tl & Hhead & Hc).
    destruct (decimal_value z Hpos) as (vs & Hne & Hval & Hlead).
    specialize (Hlead rest). rewrite Hhead in *.
    rewrite trimStart_head by by apply digit_not_space.
    assert ((c =? 0x2D)%N = false ∧ (c =? 0x2B)%N = false) as [Hm Hp].
    { destruct Hc as [v Hv]. unfold digitValue in Hv. case_match eqn:Hr; [|done].
      apply andb_true_iff in Hr as [Hlo Hhi]. apply N.leb_le in Hlo, Hhi.
      split; apply N.eqb_neq; lia. }
    unfold splitSign. rewrite Hm, Hp, Hlead, Hrest, app_nil_r.
    destruct vs as [|v vs]; [done|]. rewrite Hval.
    replace (1 * z) with z by lia. by apply toNumber_safe.
Qed.

End Numerals.

(** ** What the page submits, and what the dispatcher makes of it *)

(** The first value under a name of a form written out. *)
Ltac fields :=
  cbn [get];
  repeat first
    [ rewrite decide_True by reflexivity
    | rewrite decide_False
        by (let H := fresh in intros H; vm_compute in H; discriminate H) ].

Section Forms.

Variable large : Z → jsstring.
Implicit Types (fd : FormData) (s : Store) (t row : Task) (v : jsstring).

Lemma validateId_of_id fd t :
  get fd (js "id") = Some (Text (toString large (Num (id t)))) →
  Z.abs (id t) < 2 ^ 53 →
  validateId fd = Return (Num (id t)).
Proof.
  intros Hget Hz. unfold validateId. rewrite Hget.
  pose proof (parseInt10_toString large (id t) [] [] Hz) as Hparse.
  rewrite app_nil_l, app_nil_r in Hparse. by rewrite Hparse.
Qed.

(** X1: [validateId] returns the integer [toString] printed, for every
    integer below 2^53 in magnitude, also with white space before the
    numeral and with text after it that starts with no digit. *)
Theorem validateId_reads_back fd z (ws rest : jsstring) :
  get fd (js "id") = Some (Text (ws ++ toString large (Num z) ++ rest)) →
  Z.abs z < 2 ^ 53 →
  Forall (λ c, isWhiteSpace c = true) ws →
  (rest = [] ∨ ∃ c tl, rest = c :: tl ∧ digitValue c = None) →
  validateId fd = Return (Num z).
Proof.
  intros Hget Hz Hws Hrest. unfold validateId. rewrite Hget.
  rewrite parseInt10_toString; [done..|].
  destruct Hrest as [-> | (c & tl & -> & Hc)]; [done|]. simpl. by rewrite Hc.
Qed.

(** X2: a run of the dispatcher either makes one call to the store, and
    that call is no read, or hands the store back as it received it and
    throws one of the five messages. It never returns without a call, and
    never makes two. *)
Theorem action_one_call_or_message fd s :
  ∃ r s', action fd s = (r, s') ∧
    ((∃ c, journal s' = journal s ++ [c] ∧ c ≠ TaskFindMany) ∨
     (s' = s ∧ ∃ m, r = Throw (Error m) ∧ m ∈ messages)).
Proof.
  assert (∀ m, m ∈ messages → ∃ m', @Throw unit (Error m) = Throw (Error m') ∧ m' ∈ messages)
    as Hmsg by eauto.
  assert (∀ fd, (∃ n, validateName fd = Return n) ∨
                (∃ m, validateName fd = Throw (Error m) ∧ m ∈ messages)) as Hname.
  { intros fd'. unfold validateName, messages. repeat case_match; eauto;
      right; eexists; (split; [done|]); apply list_elem_of_In; simpl; tauto. }
  assert (∀ fd, (∃ n, validateId fd = Return n) ∨
                (∃ m, validateId fd = Throw (Error m) ∧ m ∈ messages)) as Hid.
  { intros fd'. unfold validateId, messages. repeat case_match; eauto;
      right; eexists; (split; [done|]); apply list_elem_of_In; simpl; tauto. }
  destruct (discriminator_cases fd) as [H | [H | [[b H] | [H | H]]]].
  - rewrite action_add by done. run.
    destruct (Hname fd) as [[n ->] | (m & -> & Hm)]; eexists _, _; (split; [done|]).
    + left. by eexists.
    + right. eauto.
  - rewrite action_update by done. run.
    destruct (Hname fd) as [[n ->] | (m & -> & Hm)];
      [|eexists _, _; split; [done|]; right; eauto].
    destruct (Hid fd) as [[i ->] | (m & -> & Hm)];
      [|eexists _, _; split; [done|]; right; eauto].
    destruct (list_find _ _) as [[k t]|]; eexists _, _; (split; [done|]);
      left; by eexists.
  - rewrite (action_toggle fd b) by done. run.
    destruct (Hid fd) as [[i ->] | (m & -> & Hm)];
      [|eexists _, _; split; [done|]; right; eauto].
    destruct (list_find _ _) as [[k t]|]; eexists _, _; (split; [done|]);
      left; by eexists.
  - rewrite action_delete by done. run.
    destruct (Hid fd) as [[i ->] | (m & -> & Hm)];
      [|eexists _, _; split; [done|]; right; eauto].
    destruct (list_find _ _) as [[k t]|]; eexists _, _; (split; [done|]);
      left; by eexists.
  - rewrite action_default by done. eexists _, _. split; [done|].
    right. split; [done|]. eexists. split; [done|]. apply list_elem_of_In. simpl. tauto.
Qed.

Lemma checkbox_discriminator t :
  get (checkboxForm large t) (js "action") =
    Some (Text (js (if negb (done t) then "done" else "undone"))).
Proof. unfold checkboxForm. fields. by destruct (done t). Qed.

(** X3: no form of the page is turned down. For a task whose id is below
    2^53 in magnitude and a non-empty input, the dispatcher throws none of
    its messages on the form of the checkbox, of the Update button, of the
    Delete button or of the Add Task button, and makes one call: an update
    of [done] to the opposite of what the row shows, an update of [name]
    to the input as typed, a delete, and a create with [done] false. *)
Theorem page_forms_are_accepted t v s :
  Z.abs (id t) < 2 ^ 53 →
  v ≠ [] →
  issues (checkboxForm large t) s
    (TaskUpdate {| where_id := Num (id t) |}
       {| update_name := None; update_done := Some (negb (done t)) |}) ∧
  issues (updateForm large t v) s
    (TaskUpdate {| where_id := Num (id t) |}
       {| update_name := Some v; update_done := None |}) ∧
  issues (deleteForm large t) s (TaskDelete {| where_id := Num (id t) |}) ∧
  issues (addForm v) s (TaskCreate {| create_done := Some false; create_name := v |}).
Proof.
  intros Hz Hv. unfold issues. split_and!.
  - rewrite (action_toggle _ (negb (done t))) by apply checkbox_discriminator.
    run. rewrite (validateId_of_id _ t) by (by unfold checkboxForm; fields).
    destruct (list_find _ _) as [[k row]|]; by eexists _, _.
  - rewrite action_update by (by unfold updateForm; fields). run.
    rewrite (validateName_returns _ v) by (by unfold updateForm; fields).
    rewrite (validateId_of_id _ t) by (by unfold updateForm; fields).
    destruct (list_find _ _) as [[k row]|]; by eexists _, _.
  - rewrite action_delete by (by unfold deleteForm; fields). run.
    rewrite (validateId_of_id _ t) by (by unfold deleteForm; fields).
    destruct (list_find _ _) as [[k row]|]; by eexists _, _.
  - rewrite action_add by (by unfold addForm; fields). run.
    rewrite (validateName_returns _ v) by (by unfold addForm; fields).
    by eexists _, _.
Qed.

(** X4: the form of a row's checkbox sets [done] of the stored task with
    the row's id to the opposite of what the row shows; the task keeps its
    id and its name, and every other position holds what it held. *)
Theorem checkbox_sets_done t row s k :
  Z.abs (id t) < 2 ^ 53 →
  NoDup (id <$> tasks s) →
  tasks s !! k = Some row →
  id row = id t →
  ∃ s', action (checkboxForm large t) s = (Return (), s') ∧
        tasks s' !! k =
          Some {| id := id row; name := name row; done := negb (done t) |} ∧
        (∀ j, j ≠ k → tasks s' !! j = tasks s !! j) ∧
        length (tasks s') = length (tasks s) ∧
        nextId s' = nextId s.
Proof.
  intros Hz Hnd Hk Hid. eexists. split.
  { apply (toggle_at _ (negb (done t)) s k row); [| |done..].
    - apply checkbox_discriminator.
    - rewrite Hid. apply validateId_of_id; [|done]. by unfold checkboxForm; fields. }
  cbn [tasks nextId]. split_and!; [| |by rewrite length_insert|done].
  - by rewrite list_lookup_insert_eq by by eapply lookup_lt_Some.
  - intros j Hne. by rewrite list_lookup_insert_ne.
Qed.

(** An update of the name of the row at [k]. *)
Lemma rename_at fd v s k row :
  get fd (js "action") = Some (Text (js "update")) →
  validateName fd = Return v →
  validateId fd = Return (Num (id row)) →
  NoDup (id <$> tasks s) →
  tasks s !! k = Some row →
  action fd s =
    (Return (),
     {| tasks := <[k := {| id := id row; name := v; done := done row |}]> (tasks s);
        nextId := nextId s;
        journal := journal s ++ [TaskUpdate {| where_id := Num (id row) |}
                                   {| update_name := Some v; update_done := None |}] |}).
Proof.
  intros Hget Hn Hid Hnd Hk. rewrite action_update by done. run.
  by rewrite Hn, Hid, (find_selected _ _ _ Hnd Hk).
Qed.

(** X5: the form of a row in edit mode gives the stored task with the
    row's id the input as its name, exactly as typed; the task keeps its id
    and its [done], and every other position holds what it held. *)
Theorem update_form_renames t row v s k :
  Z.abs (id t) < 2 ^ 53 →
  v ≠ [] →
  NoDup (id <$> tasks s) →
  tasks s !! k = Some row →
  id row = id t →
  ∃ s', action (updateForm large t v) s = (Return (), s') ∧
        tasks s' !! k = Some {| id := id row; name := v; done := done row |} ∧
        (∀ j, j ≠ k → tasks s' !! j = tasks s !! j) ∧
        length (tasks s') = length (tasks s) ∧
        nextId s' = nextId s.
Proof.
  intros Hz Hv Hnd Hk Hid. eexists. split.
  { apply (rename_at _ v s k row); [| | |done..].
    - by unfold updateForm; fields.
    - apply validateName_returns; [|done]. by unfold updateForm; fields.
    - rewrite Hid. apply validateId_of_id; [|done]. by unfold updateForm; fields. }
  cbn [tasks nextId]. split_and!; [| |by rewrite length_insert|done].
  - by rewrite list_lookup_insert_eq by by eapply lookup_lt_Some.
  - intros j Hne. by rewrite list_lookup_insert_ne.
Qed.

(** No row has the id: nothing is selected. *)
Lemma find_absent (i : Z) (l : list Task) :
  i ∉ id <$> l → list_find (selects {| where_id := Num i |}) l = None.
Proof.
  intros Hi. apply list_find_None, Forall_forall. intros x Hx Hsel.
  unfold selects in Hsel. simpl in Hsel. injection Hsel as ->.
  apply Hi. by apply list_elem_of_fmap_2.
Qed.

(** With unique ids, the id of the row taken out is the id of no row
    left. *)
Lemma id_gone (l : list Task) k row :
  NoDup (id <$> l) → l !! k = Some row → id row ∉ id <$> delete k l.
Proof.
  intros Hnd Hk [j Hj]%list_elem_of_lookup_1.
  rewrite list_fmap_delete, list_lookup_delete in Hj.
  assert ((id <$> l) !! k = Some (id row)) as Hk'
    by by rewrite list_lookup_fmap, Hk.
  pose proof (NoDup_lookup _ _ _ _ Hnd Hk' Hj) as Heq.
  case_decide; lia.
Qed.

(** X6: the form of a row's Delete button takes the stored task with the
    row's id out of the rows and leaves the others in their order; after
    it, the checkbox form, the update form and the delete form of the same
    row all fail with [NotFoundError] and leave the rows as they are. *)
Theorem delete_form_removes t row s k :
  Z.abs (id t) < 2 ^ 53 →
  NoDup (id <$> tasks s) →
  tasks s !! k = Some row →
  id row = id t →
  ∃ s', action (deleteForm large t) s = (Return (), s') ∧
        tasks s' = delete k (tasks s) ∧
        nextId s' = nextId s ∧
        ∀ fd, fd = checkboxForm large t ∨ fd = deleteForm large t ∨
              (∃ v, v ≠ [] ∧ fd = updateForm large t v) →
              ∃ s'', action fd s' = (Throw NotFoundError, s'') ∧
                     tasks s'' = tasks s'.
Proof.
  intros Hz Hnd Hk Hid.
  assert (∀ fd, get fd (js "id") = Some (Text (toString large (Num (id t)))) →
                validateId fd = Return (Num (id row))) as Hval.
  { intros fd Hget. rewrite Hid. by apply validateId_of_id. }
  eexists. split.
  { rewrite action_delete by (by unfold deleteForm; fields). run.
    rewrite Hval by (by unfold deleteForm; fields).
    by rewrite (find_selected _ _ _ Hnd Hk). }
  cbn [tasks nextId]. split_and!; [done..|].
  pose proof (id_gone _ _ _ Hnd Hk) as Hgone.
  intros fd [-> | [-> | (v & Hv & ->)]].
  - rewrite (action_toggle _ (negb (done t))) by apply checkbox_discriminator.
    run. rewrite Hval by (by unfold checkboxForm; fields).
    rewrite find_absent by done. by eexists.
  - rewrite action_delete by (by unfold deleteForm; fields). run.
    rewrite Hval by (by unfold deleteForm; fields).
    rewrite find_absent by done. by eexists.
  - rewrite action_update by (by unfold updateForm; fields). run.
    rewrite (validateName_returns _ v) by (by unfold updateForm; fields).
    rewrite Hval by (by unfold updateForm; fields).
    rewrite find_absent by done. by eexists.
Qed.

End Forms.

(** ** Rows, requests and the editor *)

Section Requests.

Implicit Types (p : Page) (ev : Event) (i a b : Z) (data : list Task).

Lemma effect_frame i p :
  loaderData (effect i p) = loaderData p ∧ submitting (effect i p) = submitting p.
Proof. unfold effect, onFinishEditing, setEditingId. by destruct (negb _). Qed.

Lemma effect_editingId i p :
  editingId (effect i p) = if isPending p i then editingId p else None.
Proof. unfold effect. by destruct (isPending p i). Qed.

(** Effects only ever clear [editingId]. *)
Lemma effects_editingId (l : list Z) p :
  editingId (foldr effect p l) = None ∨ editingId (foldr effect p l) = editingId p.
Proof.
  induction l as [|i l IH]; [by right|].
  simpl. rewrite effect_editingId. destruct (isPending _ i); [done | by left].
Qed.


Lemma revalidate_frame data p :
  loaderData (revalidate data p) = data ∧
  submitting (revalidate data p) = submitting p.
Proof.
  unfold revalidate.
  match goal with |- context [foldr effect ?q ?l] => exact (effects_frame l q) end.
Qed.

Lemma settle_frame i data p :
  loaderData (settle i data p) = data ∧
  submitting (settle i data p) = submitting p ∖ {[i]}.
Proof.
  unfold settle. destruct (_ && _).
  - destruct (effect_frame i (revalidate data
        {| loaderData := loaderData p; editingId := editingId p;
           submitting := submitting p ∖ {[i]} |})) as [-> ->].
    apply revalidate_frame.
  - apply revalidate_frame.
Qed.

Lemma settle_editingId i data p :
  editingId (settle i data p) = None ∨ editingId (settle i data p) = editingId p.
Proof.
  unfold settle, revalidate.
  match goal with |- context [foldr effect ?q ?l] =>
    destruct (effects_editingId l q) as [H | H] end;
    destruct (_ && _); rewrite ?effect_editingId; try destruct (isPending _ i);
    rewrite ?H; auto.
Qed.

(** X7: a row enters edit mode in one way only: by a click on its name
    while it is on the page and has no submission pending. *)
Theorem editing_enters p a ev :
  isEditing p a = false →
  isEditing (step ev p) a = true →
  ev = ClickText a ∧ mounted p a = true ∧ isPending p a = false.
Proof.
  intros Hout Hin.
  destruct ev as [b | b | b | b | b | b data | data]; simpl in Hin.
  - destruct (mounted p b) eqn:Hm; [|congruence].
    unfold onClickText in Hin. destruct (isPending p b) eqn:Hp; simpl in Hin; [congruence|].
    unfold isEditing, onStartEditing, setEditingId in Hin. simpl in Hin.
    apply bool_decide_eq_true in Hin. injection Hin as ->. done.
  - exfalso. destruct (_ && _); [|congruence].
    unfold isEditing in Hin. simpl in Hin. first [done | by apply bool_decide_eq_true in Hin].
  - exfalso. destruct (_ && _); [|congruence].
    unfold isEditing in *. rewrite submit_editingId in Hin. congruence.
  - exfalso. destruct (mounted p b); simpl in Hin; [|congruence].
    destruct (isEditing p b) eqn:Hb; simpl in Hin; [|congruence].
    destruct (negb (isPending p b)) eqn:Hp; simpl in Hin; [|congruence].
    unfold isEditing in Hin. rewrite submit_editingId in Hin.
    unfold onClickText, onStartEditing, setEditingId in Hin. rewrite Hp in Hin.
    simpl in Hin. apply bool_decide_eq_true in Hin. simplify_eq. congruence.
  - exfalso. destruct (_ && _); [|congruence].
    unfold isEditing in *. rewrite submit_editingId in Hin. congruence.
  - exfalso. destruct (isPending p b); [|congruence].
    unfold isEditing in *.
    destruct (settle_editingId b data p) as [H | H]; rewrite H in Hin;
      [first [done | by apply bool_decide_eq_true in Hin] | congruence].
  - exfalso. unfold isEditing, revalidate in *.
    match goal with H : context [foldr effect ?q ?l] |- _ =>
      destruct (effects_editingId l q) as [H' | H']; rewrite H' in H end;
      [first [done | by apply bool_decide_eq_true in Hin] | simpl in Hin; congruence].
Qed.



Lemma submit_frame i p :
  loaderData (submit i p) = loaderData p ∧
  submitting (submit i p) = submitting p ∪ {[i]}.
Proof.
  unfold submit.
  match goal with |- context [effect i ?q] => exact (effect_frame i q) end.
Qed.



End Requests.

(** ** From a click to the next render *)

Section RoundTrip.

Variable large : Z → jsstring.
Implicit Types (p : Page) (s : Store) (t : Task).

(** X10: a checkbox, from the change to the next render. On a page that
    shows the stored tasks, the change of the checkbox of a row that is
    not pending submits a form the dispatcher accepts; once the loader has
    been read again and the submission has settled, that row shows the
    same name with [done] reversed, every other row shows the task it
    showed, the row is pending no more, and no row is in edit mode. *)
Theorem checkbox_round_trip p s k t :
  loaderData p = tasks s →
  NoDup (id <$> tasks s) →
  tasks s !! k = Some t →
  Z.abs (id t) < 2 ^ 53 →
  isPending p (id t) = false →
  ∃ s1 s2 data,
    action (checkboxForm large t) s = (Return (), s1) ∧
    loader s1 = (Return data, s2) ∧
    render (step (Settled (id t) data) (step (ChangeCheckbox (id t)) p)) !! k =
      Some ({| id := id t; name := name t; done := negb (done t) |}, false) ∧
    (∀ j row, j ≠ k → loaderData p !! j = Some row →
       render (step (Settled (id t) data) (step (ChangeCheckbox (id t)) p)) !! j =
         Some (row, false)) ∧
    isPending (step (Settled (id t) data) (step (ChangeCheckbox (id t)) p)) (id t) = false.
Proof.
  intros Hsync Hnd Hk Hz Hp.
  set (t' := {| id := id t; name := name t; done := negb (done t) |}).
  set (data := <[k := t']> (tasks s)).
  assert (id t ∈ id <$> loaderData p) as Hin.
  { rewrite Hsync. apply list_elem_of_fmap_2. by eapply list_elem_of_lookup_2. }
  assert (id t ∈ id <$> data) as Hin'.
  { unfold data. rewrite (ids_insert _ _ t) by done. by rewrite <- Hsync. }
  assert (mounted p (id t) = true) as Hm by by apply bool_decide_eq_true.
  set (p1 := step (ChangeCheckbox (id t)) p).
  assert (p1 = submit (id t) p) as Hp1 by (unfold p1; simpl; by rewrite Hm, Hp).
  destruct (submit_frame (id t) p) as [Hdata1 Hsub1]. rewrite <- Hp1 in Hdata1, Hsub1.
  assert (isPending p1 (id t) = true) as Hp1'.
  { unfold isPending. rewrite Hsub1. apply bool_decide_eq_true.
    apply elem_of_union; right. by apply elem_of_singleton. }
  assert (mounted p1 (id t) = true) as Hm1 by (unfold mounted; by rewrite Hdata1).
  pose proof (settled_clears_editing p1 (id t) data Hp1' Hm1 Hin') as Hnone.
  set (p2 := step (Settled (id t) data) p1) in *.
  assert (loaderData p2 = data ∧ submitting p2 = submitting p1 ∖ {[id t]}) as [Hdata2 Hsub2].
  { unfold p2. simpl. rewrite Hp1'. apply settle_frame. }
  assert (∀ i, isEditing p2 i = false) as Hclosed.
  { intros i. unfold isEditing. by rewrite Hnone. }
  exists {| tasks := data; nextId := nextId s;
            journal := journal s ++
              [TaskUpdate {| where_id := Num (id t) |}
                 {| update_name := None; update_done := Some (negb (done t)) |}] |}.
  eexists _, data.
  change (step (Settled (id t) data) _) with p2.
  split_and!.
  - apply (toggle_at _ (negb (done t)) s k t); [| |done..].
    + apply checkbox_discriminator.
    + apply (validateId_of_id large); [|done]. by unfold checkboxForm; fields.
  - reflexivity.
  - unfold render. rewrite list_lookup_fmap, Hdata2. unfold data.
    rewrite list_lookup_insert_eq by by eapply lookup_lt_Some.
    simpl. by rewrite Hclosed.
  - intros j row Hne Hj. unfold render. rewrite list_lookup_fmap, Hdata2. unfold data.
    rewrite list_lookup_insert_ne by done. rewrite <- Hsync, Hj. simpl.
    by rewrite Hclosed.
  - unfold isPending. rewrite Hsub2. apply bool_decide_eq_false.
    intros [_ Hn]%elem_of_difference. apply Hn. by apply elem_of_singleton.
Qed.

End RoundTrip.

(** ** Settling, and the form above the list *)

Section Settling.

Implicit Types (p : Page) (b i : Z) (data : list Task) (f : AddTaskForm).


Lemma addForm_issues (v : jsstring) s :
  v ≠ [] →
  issues (addForm v) s (TaskCreate {| create_done := Some false; create_name := v |}).
Proof.
  intros Hv. unfold issues.
  rewrite action_add by (by unfold addForm; fields). run.
  rewrite (validateName_returns _ v) by (by unfold addForm; fields).
  by eexists _, _.
Qed.

Lemma addRun_cons ev (evs : list AddEvent) f :
  addRun (ev :: evs) f =
    ((addRun evs (addStep ev f).1).1,
     match (addStep ev f).2 with
     | Some fd => fd :: (addRun evs (addStep ev f).1).2
     | None => (addRun evs (addStep ev f).1).2
     end).
Proof. simpl. by destruct (addStep ev f), (addRun evs _). Qed.

(** The submissions of a run are of non-empty inputs, and each but a
    pending one has a settling after it. *)
Lemma addRun_invariant (evs : list AddEvent) f :
  Forall (λ fd, ∃ v, v ≠ [] ∧ fd = addForm v) (addRun evs f).2 ∧
  (length (addRun evs f).2 + (if pending f then 1 else 0)
   ≤ settlings evs + (if pending (addRun evs f).1 then 1 else 0))%nat.
Proof.
  revert f. induction evs as [|ev evs IH]; intros f; [simpl; split; [done | lia]|].
  rewrite addRun_cons. unfold settlings in *. cbn [fst snd].
  destruct ev as [v | |]; cbn [addStep].
  - rewrite filter_cons_False by done. cbn [fst snd].
    apply (IH {| input := v; pending := pending f |}).
  - rewrite filter_cons_False by done.
    destruct (pending f) eqn:Hp; cbn [negb andb fst snd].
    + specialize (IH f). by rewrite Hp in IH.
    + case_bool_decide as Hin; cbn [fst snd resetEffect pending negb].
      * destruct (IH {| input := input f; pending := true |}) as [IH1 IH2].
        cbn [pending] in IH2. split; [constructor; eauto | simpl; lia].
      * specialize (IH f). by rewrite Hp in IH.
  - rewrite filter_cons_True by done.
    destruct (pending f) eqn:Hp; cbn [fst snd resetEffect pending negb].
    + destruct (IH {| input := []; pending := false |}) as [IH1 IH2].
      cbn [pending] in IH2. split; [done | simpl; lia].
    + destruct (IH f) as [IH1 IH2]. rewrite Hp in IH2. split; [done | simpl; lia].
Qed.

(** A settling empties the input, whatever was typed meanwhile. *)
Lemma settling_empties (evs : list AddEvent) f typed :
  pending (addRun evs f).1 = true →
  input (addRun (evs ++ [Typed typed; AddSettled]) f).1 = [].
Proof.
  revert f. induction evs as [|ev evs IH]; intros f Hp.
  - simpl in *. by rewrite Hp.
  - rewrite <- app_comm_cons, addRun_cons. rewrite addRun_cons in Hp.
    cbn [fst] in *. by apply IH.
Qed.

(** X12: the form above the list. Whatever is typed, clicked and settled
    after it mounts, every form it submits carries a non-empty name and is
    accepted by the dispatcher, which makes one create with [done] false;
    it never has two submissions pending, each but a pending last one
    having a settling after it; and a settling empties the input, also of
    text typed while the submission was pending. *)
Theorem add_form_submissions (evs : list AddEvent) :
  Forall (λ fd, ∃ v, v ≠ [] ∧ fd = addForm v ∧
                     ∀ s, issues fd s (TaskCreate {| create_done := Some false;
                                                    create_name := v |}))
         (addRun evs addMount).2 ∧
  (length (addRun evs addMount).2
   ≤ settlings evs + (if pending (addRun evs addMount).1 then 1 else 0))%nat ∧
  (pending (addRun evs addMount).1 = true →
   ∀ typed, input (addRun (evs ++ [Typed typed; AddSettled]) addMount).1 = []).
Proof.
  destruct (addRun_invariant evs addMount) as [Hsent Hcount]. split_and!.
  - eapply Forall_impl; [exact Hsent|]. intros fd (v & Hv & ->).
    exists v. split_and!; [done | done |]. intros s. by apply addForm_issues.
  - simpl in Hcount. lia.
  - intros Hp typed. by apply settling_empties.
Qed.

End Settling.

(** ** Instances *)

Lemma validateId_reads_back_witness :
  validateId [(js "id", Text (js " " ++ toString noLargeIds (Num (-42)) ++ js "nd"))] =
    Return (Num (-42)).
Proof.
  apply (validateId_reads_back noLargeIds _ (-42) (js " ") (js "nd"));
    [reflexivity | by vm_compute | by repeat constructor |].
  right. by eexists _, _.
Defined.

Lemma page_forms_are_accepted_witness :
  issues (checkboxForm noLargeIds eggs) pantry
    (TaskUpdate {| where_id := Num 2 |}
       {| update_name := None; update_done := Some false |}) ∧
  issues (updateForm noLargeIds eggs (js " ")) pantry
    (TaskUpdate {| where_id := Num 2 |}
       {| update_name := Some (js " "); update_done := None |}) ∧
  issues (deleteForm noLargeIds eggs) pantry (TaskDelete {| where_id := Num 2 |}) ∧
  issues (addForm (js " ")) pantry
    (TaskCreate {| create_done := Some false; create_name := js " " |}).
Proof.
  apply (page_forms_are_accepted noLargeIds eggs (js " ") pantry);
    [by vm_compute | discriminate].
Defined.

Lemma checkbox_sets_done_witness :
  ∃ s', action (checkboxForm noLargeIds eggs) pantry = (Return (), s') ∧
        tasks s' !! 1%nat = Some eggs_undone ∧
        (∀ j, j ≠ 1%nat → tasks s' !! j = tasks pantry !! j) ∧
        length (tasks s') = length (tasks pantry) ∧
        nextId s' = nextId pantry.
Proof.
  apply (checkbox_sets_done noLargeIds eggs eggs pantry 1);
    [by vm_compute | apply pantry_ids_unique | reflexivity | reflexivity].
Defined.

Lemma update_form_renames_witness :
  ∃ s', action (updateForm noLargeIds eggs (js "Buy bread")) pantry = (Return (), s') ∧
        tasks s' !! 1%nat = Some {| id := 2; name := js "Buy bread"; done := true |} ∧
        (∀ j, j ≠ 1%nat → tasks s' !! j = tasks pantry !! j) ∧
        length (tasks s') = length (tasks pantry) ∧
        nextId s' = nextId pantry.
Proof.
  apply (update_form_renames noLargeIds eggs eggs (js "Buy bread") pantry 1);
    [by vm_compute | discriminate | apply pantry_ids_unique | reflexivity | reflexivity].
Defined.

Lemma delete_form_removes_witness :
  ∃ s', action (deleteForm noLargeIds milk) pantry = (Return (), s') ∧
        tasks s' = [eggs] ∧
        ∃ s'', action (checkboxForm noLargeIds milk) s' = (Throw NotFoundError, s'') ∧
               tasks s'' = [eggs].
Proof.
  destruct (delete_form_removes noLargeIds milk milk pantry 0)
    as (s' & Hrun & Hrows & _ & Hafter);
    [by vm_compute | apply pantry_ids_unique | reflexivity | reflexivity |].
  exists s'. split_and!; [exact Hrun | exact Hrows |].
  destruct (Hafter (checkboxForm noLargeIds milk)) as (s'' & Hrun' & Hrows'); [by left|].
  exists s''. split; [exact Hrun'|]. by rewrite Hrows', Hrows.
Defined.

Lemma editing_enters_witness :
  ClickText 2 = ClickText 2 ∧
  mounted (steps [ClickText 1] (mount [milk; eggs])) 2 = true ∧
  isPending (steps [ClickText 1] (mount [milk; eggs])) 2 = false.
Proof.
  apply (editing_enters (steps [ClickText 1] (mount [milk; eggs])) 2 (ClickText 2));
    by vm_compute.
Defined.



Lemma checkbox_round_trip_witness :
  ∃ s1 s2 data,
    action (checkboxForm noLargeIds eggs) pantry = (Return (), s1) ∧
    loader s1 = (Return data, s2) ∧
    render (step (Settled 2 data)
              (step (ChangeCheckbox 2) (steps [ClickText 1] (mount [milk; eggs])))) !! 1%nat =
      Some (eggs_undone, false) ∧
    (∀ j row, j ≠ 1%nat →
       loaderData (steps [ClickText 1] (mount [milk; eggs])) !! j = Some row →
       render (step (Settled 2 data)
                 (step (ChangeCheckbox 2) (steps [ClickText 1] (mount [milk; eggs])))) !! j =
         Some (row, false)) ∧
    isPending (step (Settled 2 data)
                 (step (ChangeCheckbox 2) (steps [ClickText 1] (mount [milk; eggs])))) 2 =
      false.
Proof.
  apply (checkbox_round_trip noLargeIds (steps [ClickText 1] (mount [milk; eggs]))
           pantry 1 eggs);
    [reflexivity | apply pantry_ids_unique | reflexivity | by vm_compute | by vm_compute].
Defined.


Lemma add_form_submissions_witness :
  (length (addRun [Typed (js "Buy bread"); ClickAdd; ClickAdd; Typed (js "Buy jam")]
             addMount).2 ≤ 0 + 1)%nat ∧
  input (addRun ([Typed (js "Buy bread"); ClickAdd] ++ [Typed (js "Buy jam"); AddSettled])
           addMount).1 = [].
Proof.
  split.
  - apply (proj1 (proj2 (add_form_submissions
             [Typed (js "Buy bread"); ClickAdd; ClickAdd; Typed (js "Buy jam")]))).
  - apply (proj2 (proj2 (add_form_submissions [Typed (js "Buy bread"); ClickAdd])));
      reflexivity.
Defined.
